(** * WeatherService (src/app/services/weather.service.ts)

    A shallow embedding of the Ionic/Angular weather service: the cache-aware
    fetcher, the weather accessors built on it, the location resolver, the
    cache reset, the selected location and the start-up, over a model of
    the JavaScript values they handle.

    - JavaScript numbers are IEEE-754 binary64 values: Rocq's primitive
      [float].
    - Values of type [any] (HTTP responses, what the key-value store holds)
      are [JSValue]s; objects keep their properties in enumeration order.
    - An Observable or Promise of the service delivers one value or one
      error; it is a computation [M A] over the mutable [World] (the store,
      the user-visible trace, the clock position), run when subscribed or
      awaited. The network status is one fixed answer of [Env], so that
      probing it when the Observable is built or when it is subscribed makes
      no difference. Storage operations are atomic and total.
    - The collaborators (network status, HTTP client, geolocation, clock)
      are the fields of [Env]; the JavaScript built-ins whose result depends
      on the engine or the device are the fields of [Platform]. *)

From Stdlib Require Import ZArith String List Bool.
From Stdlib Require Import Floats.Floats.
From Stdlib Require Numbers.Cyclic.Int63.Uint63.
From stdpp Require Import base gmap strings pretty.

Set Warnings "-inexact-float,-register-all".
Local Open Scope string_scope.

(** ** JavaScript values *)

Inductive JSValue : Type :=
| JUndefined
| JNull
| JBool (b : bool)
| JNum (n : float)
| JStr (s : string)
| JArr (elems : list JSValue)
| JObj (fields : list (string * JSValue)).

(** What a [throw], a rejected Promise or an errored Observable carries. *)
Inductive Thrown : Type :=
| JSError (name message : string)  (* an Error instance: [new Error(message)], a TypeError *)
| Rejected (text : string).        (* any other value, by its string conversion *)

Definition Error (message : string) : Thrown := JSError "Error" message.
Definition TypeError (message : string) : Thrown := JSError "TypeError" message.

(** [String(error)], as in ['...' + error]: Error.prototype.toString. *)
Definition toString (e : Thrown) : string :=
  match e with
  | JSError name message =>
      if String.eqb name "" then message
      else if String.eqb message "" then name
      else name +:+ ": " +:+ message
  | Rejected text => text
  end.

Inductive Result (A : Type) : Type :=
| Ok (a : A)
| Err (e : Thrown).
Arguments Ok {A} a.
Arguments Err {A} e.

Module JS.

(** ToBoolean. *)
Definition truthy (v : JSValue) : bool :=
  match v with
  | JUndefined | JNull => false
  | JBool b => b
  | JNum n => negb (PrimFloat.is_zero n || PrimFloat.is_nan n)
  | JStr s => negb (String.eqb s "")
  | JArr _ | JObj _ => true
  end.

Definition isArray (v : JSValue) : bool :=
  match v with JArr _ => true | _ => false end.

Definition float_of_Z (z : Z) : float :=
  if (z <? 0)%Z then PrimFloat.opp (of_uint63 (Uint63.of_Z (- z))) else of_uint63 (Uint63.of_Z z).

(** The own enumerable string-keyed properties of a value, in enumeration
    order: the properties of an object, the indices of an array or of a
    string. This is what an object spread copies. *)
Definition own_fields (v : JSValue) : list (string * JSValue) :=
  match v with
  | JObj fields => fields
  | JArr elems => imap (fun i x => (pretty i, x)) elems
  | JStr s => imap (fun i c => (pretty i, JStr (String c EmptyString))) (list_ascii_of_string s)
  | _ => []
  end.

Fixpoint lookup_field (p : string) (fields : list (string * JSValue)) : JSValue :=
  match fields with
  | [] => JUndefined
  | (k, v) :: rest => if String.eqb k p then v else lookup_field p rest
  end.

(** [v.p] for a [v] that is neither null nor undefined. Members inherited
    from the built-in prototypes are not modelled: the service reads
    [timestamp], [data], [main], [sys], [list], [sunrise], [sunset],
    [temp], [latitude] and [longitude] only, none of which is one. *)
Definition own_prop (v : JSValue) (p : string) : JSValue :=
  match v with
  | JArr elems =>
      if String.eqb p "length" then JNum (float_of_Z (Z.of_nat (length elems)))
      else lookup_field p (own_fields v)
  | JStr s =>
      if String.eqb p "length" then JNum (float_of_Z (Z.of_nat (String.length s)))
      else lookup_field p (own_fields v)
  | _ => lookup_field p (own_fields v)
  end.

(** [v?.p] *)
Definition opt_chain (v : JSValue) (p : string) : JSValue :=
  match v with
  | JUndefined | JNull => JUndefined
  | _ => own_prop v p
  end.

(** [{ ...fields, p: x }]: an existing property keeps its place. *)
Fixpoint set_field (p : string) (x : JSValue) (fields : list (string * JSValue))
  : list (string * JSValue) :=
  match fields with
  | [] => [(p, x)]
  | (k, v) :: rest =>
      if String.eqb k p then (k, x) :: rest else (k, v) :: set_field p x rest
  end.

Definition is_neg_zero (x : float) : bool :=
  match classify x with NZero => true | _ => false end.
Definition is_pos_zero (x : float) : bool :=
  match classify x with PZero => true | _ => false end.

(** Math.max and Math.min on numbers already coerced. *)
Definition max_step (highest number : float) : float :=
  if is_nan highest || is_nan number then nan
  else if is_pos_zero number && is_neg_zero highest then number
  else if PrimFloat.ltb highest number then number
  else highest.

Definition min_step (lowest number : float) : float :=
  if is_nan lowest || is_nan number then nan
  else if is_neg_zero number && is_pos_zero lowest then number
  else if PrimFloat.ltb number lowest then number
  else lowest.

Definition max_numbers (l : list float) : float := fold_left max_step l neg_infinity.
Definition min_numbers (l : list float) : float := fold_left min_step l infinity.

(** Math.round on a number: the integer closest to [x], a tie going to
    +Infinity; NaN, the infinities and the zeros are returned as they are,
    and a result of zero keeps the sign of [x]. Computed exactly, from the
    mantissa and exponent of [x]: floor(x + 1/2). *)
Definition Math_round (x : float) : float :=
  match Prim2SF x with
  | S754_finite s m e =>
      if (0 <=? e)%Z then x
      else
        let sm := if s then Z.neg m else Z.pos m in
        let q := ((2 * sm + 2 ^ (- e)) / 2 ^ (1 - e))%Z in
        if (q =? 0)%Z then (if s then neg_zero else zero) else float_of_Z q
  | _ => x
  end.

End JS.


(** ** The collaborators and the mutable world *)

(** What the build and the device supply: the configuration constant of
    src/environments/environment.ts, and the built-ins of the JavaScript
    engine whose result is a matter of the engine, the locale or the time
    zone. *)
Record Platform : Type := {
  weatherApiKey : string;                  (* environment.weatherApiKey *)
  StringToNumber : string -> float;        (* ToNumber on a string *)
  ObjectToNumber : JSValue -> float;       (* ToNumber on an array or object *)
  NumberToString : float -> string;        (* a number inside a template literal *)
  toFixed6 : float -> string;              (* Number.prototype.toFixed(6) *)
  toLocaleTimeString : float -> string;    (* new Date(ms).toLocaleTimeString('en-US',
                                              { hour: 'numeric', minute: '2-digit', hour12: true }) *)
  nullish_read_message : JSValue -> string -> string
                                           (* the text of the TypeError for [v.p], [v] null or undefined *)
}.

(** The collaborators of section 6 of the specification, as one call of the
    service sees them. *)
Record Env : Type := {
  connected : Result bool;                 (* (await Network.getStatus()).connected *)
  http : string -> Result JSValue;         (* HttpClient.get(url): the parsed body or the failure *)
  position : Result (float * float);       (* Geolocation.getCurrentPosition: coords.latitude, coords.longitude *)
  clock : nat -> float                     (* what the i-th reading of Date.now() returns *)
}.

Inductive Event : Type :=
| Alert (message : string)
| HttpGet (url : string)
| GetCurrentPosition.

Record World : Type := {
  store : gmap string JSValue;             (* the Ionic key-value store *)
  trace : list Event;                      (* alerts shown and outside requests made, latest first *)
  tick : nat                               (* how many times the clock has been read *)
}.

Definition set_store (f : gmap string JSValue -> gmap string JSValue) (w : World) : World :=
  {| store := f (store w); trace := trace w; tick := tick w |}.
Definition log (ev : Event) (w : World) : World :=
  {| store := store w; trace := ev :: trace w; tick := tick w |}.
Definition advance (w : World) : World :=
  {| store := store w; trace := trace w; tick := S (tick w) |}.

(** ** Observables and Promises: state and error passing *)

Definition M (A : Type) : Type := World -> Result A * World.

Definition ret {A} (a : A) : M A := fun w => (Ok a, w).

Definition throw {A} (e : Thrown) : M A := fun w => (Err e, w).

(** [await], [switchMap], and [map] with a callback that may throw. *)
Definition bind {A B} (m : M A) (k : A -> M B) : M B :=
  fun w =>
    match m w with
    | (Ok a, w') => k a w'
    | (Err e, w') => (Err e, w')
    end.

(** [catchError] of RxJS, and [try { m } catch (error) { h error }]. *)
Definition catchError {A} (m : M A) (h : Thrown -> M A) : M A :=
  fun w =>
    match m w with
    | (Ok a, w') => (Ok a, w')
    | (Err e, w') => h e w'
    end.

Declare Scope js_scope.
Delimit Scope js_scope with js.
Notation "x <- m ;; k" := (bind m (fun x => k))
  (at level 100, m at next level, right associativity) : js_scope.
Notation "m ;;; k" := (bind m (fun _ => k))
  (at level 100, right associativity) : js_scope.

(** [tap(f)]: run [f] on the value and pass the value on. *)
Definition tap {A} (m : M A) (f : A -> M unit) : M A :=
  (a <- m ;; f a ;;; ret a)%js.

Definition alert (message : string) : M unit := fun w => (Ok tt, log (Alert message) w).

(** ** The service *)

Section Service.

Variable P : Platform.
Variable E : Env.

Local Open Scope js_scope.

(** ToNumber, as applied by [-], [*], Math.max and Math.min. *)
Definition ToNumber (v : JSValue) : float :=
  match v with
  | JUndefined => nan
  | JNull => zero
  | JBool b => if b then one else zero
  | JNum n => n
  | JStr s => StringToNumber P s
  | JArr _ | JObj _ => ObjectToNumber P v
  end.

(** [v.p]: a TypeError when [v] is null or undefined. *)
Definition get_prop (v : JSValue) (p : string) : M JSValue :=
  match v with
  | JUndefined | JNull => throw (TypeError (nullish_read_message P v p))
  | _ => ret (JS.own_prop v p)
  end.

(** [Math.max(...args)] and [Math.min(...args)] as ECMAScript defines them,
    for any number of arguments: the limit an engine puts on the arguments
    of one call is not modelled. *)
Definition Math_max (args : list JSValue) : float := JS.max_numbers (map ToNumber args).
Definition Math_min (args : list JSValue) : float := JS.min_numbers (map ToNumber args).

(** [array.map(f)] with a callback that may throw. *)
Fixpoint array_map (f : JSValue -> M JSValue) (l : list JSValue) : M (list JSValue) :=
  match l with
  | [] => ret []
  | x :: rest => y <- f x ;; ys <- array_map f rest ;; ret (y :: ys)
  end.

Definition Date_now : M float := fun w => (Ok (clock E (tick w)), advance w).

Definition storage_get (key : string) : M JSValue :=
  fun w => (Ok (default JNull (store w !! key)), w).
Definition storage_set (key : string) (value : JSValue) : M unit :=
  fun w => (Ok tt, set_store (insert key value) w).
Definition storage_clear : M unit :=
  fun w => (Ok tt, set_store (fun _ => ∅) w).

Definition http_get (url : string) : M JSValue :=
  fun w => (http E url, log (HttpGet url) w).

Definition Geolocation_getCurrentPosition : M (float * float) :=
  fun w => (position E, log GetCurrentPosition w).

Definition isOnline : M bool := fun w => (connected E, w).

Definition getCityName (latitude longitude : float) : M JSValue :=
  catchError
    (http_get ("https://nominatim.openstreetmap.org/reverse?format=json&lat="
               +:+ NumberToString P latitude +:+ "&lon=" +:+ NumberToString P longitude))
    (fun error => throw (Error "Failed to get city name.")).

Definition getCurrentLocation : M JSValue :=
  catchError
    (online <- isOnline ;;
     if negb online then
       cachedLocation <- storage_get "currentLocation" ;;
       if JS.truthy cachedLocation then ret cachedLocation
       else
         alert "You are offline and no cached location is available." ;;;
         throw (Error "No cached location available while offline.")
     else
       coords <- Geolocation_getCurrentPosition ;;
       let '(latitude, longitude) := coords in
       cityName <- getCityName latitude longitude ;;
       let location :=
         JObj [("latitude", JNum latitude); ("longitude", JNum longitude); ("city", cityName)] in
       storage_set "currentLocation" location ;;;
       ret location)
    (fun error =>
       alert ("Error getting location: " +:+ toString error) ;;;
       throw error).

(** [10 * 60 * 1000] *)
Definition default_maxAge : float := (10 * 60 * 1000)%float.

Definition fetchDataWithCache (endpoint cacheKey : string) (maxAge : float) : M JSValue :=
  online <- isOnline ;;
  if negb online then
    cachedData <- storage_get cacheKey ;;
    fresh <- (if JS.truthy cachedData then
                now <- Date_now ;;
                timestamp <- get_prop cachedData "timestamp" ;;
                ret (PrimFloat.ltb (PrimFloat.sub now (ToNumber timestamp)) maxAge)
              else ret false) ;;
    if fresh : bool then get_prop cachedData "data"
    else throw (Error "No valid cached data available")
  else
    catchError
      (tap (http_get endpoint)
           (fun data =>
              now <- Date_now ;;
              storage_set cacheKey (JObj [("data", data); ("timestamp", JNum now)])))
      (fun error =>
         alert ("Error fetching data:" +:+ toString error) ;;;
         throw (Error "Failed to fetch data.")).

Definition convertUnixToLocalTime (timestamp : JSValue) : string :=
  toLocaleTimeString P (PrimFloat.mul (ToNumber timestamp) 1000).

(** The [url] and [cacheKey] constants of [getWeatherData]. *)
Definition weather_url (latitude longitude : float) : string :=
  "https://api.openweathermap.org/data/2.5/weather?lat=" +:+ NumberToString P latitude
  +:+ "&lon=" +:+ NumberToString P longitude
  +:+ "&units=metric&appid=" +:+ weatherApiKey P.
Definition weather_cacheKey (latitude longitude : float) : string :=
  "weather_current_" +:+ toFixed6 P latitude +:+ "_" +:+ toFixed6 P longitude.

Definition getWeatherData (latitude longitude : float) : M JSValue :=
  let url := weather_url latitude longitude in
  let cacheKey := weather_cacheKey latitude longitude in
  catchError
    (data <- fetchDataWithCache url cacheKey default_maxAge ;;
     if JS.truthy (JS.opt_chain data "main") then
       sys <- get_prop data "sys" ;;
       let source := if JS.truthy sys then sys else JObj [] in
       sunrise <- get_prop source "sunrise" ;;
       sunset <- get_prop source "sunset" ;;
       ret (JObj
              (JS.set_field "sunset"
                 (if JS.truthy sunset then JStr (convertUnixToLocalTime sunset) else JNull)
                 (JS.set_field "sunrise"
                    (if JS.truthy sunrise then JStr (convertUnixToLocalTime sunrise) else JNull)
                    (JS.own_fields data))))
     else ret data)
    (fun error =>
       alert ("Error fetching weather data: " +:+ toString error) ;;;
       throw (Error "Failed to fetch weather data.")).

(** The [url] of [getWeeklyWeather] and of [getHourlyWeather]. *)
Definition forecast_url (latitude longitude : float) : string :=
  "https://api.openweathermap.org/data/2.5/forecast?lat=" +:+ NumberToString P latitude
  +:+ "&lon=" +:+ NumberToString P longitude
  +:+ "&units=metric&appid=" +:+ weatherApiKey P.

Definition getWeeklyWeather (latitude longitude : float) : M JSValue :=
  let url := forecast_url latitude longitude in
  fetchDataWithCache url
    ("weekly_forecast_" +:+ NumberToString P latitude +:+ "_" +:+ NumberToString P longitude)
    default_maxAge.

Definition getHourlyWeather (latitude longitude : float) : M JSValue :=
  let url := forecast_url latitude longitude in
  let cacheKey := "weather_" +:+ toFixed6 P latitude +:+ "_" +:+ toFixed6 P longitude in
  fetchDataWithCache url cacheKey default_maxAge.

Definition getVisibilityData (latitude longitude : float) : M JSValue :=
  getWeatherData latitude longitude.

Definition getHighLowTemperature (latitude longitude : float) : M JSValue :=
  catchError
    (data <- getWeeklyWeather latitude longitude ;;
     valid <- (if JS.truthy data then
                 list <- get_prop data "list" ;;
                 ret (JS.truthy list && JS.isArray list)
               else ret false) ;;
     if valid : bool then
       list <- get_prop data "list" ;;
       temps <- array_map (fun entry => main <- get_prop entry "main" ;; get_prop main "temp")
                          (match list with JArr elems => elems | _ => [] end) ;;
       ret (JObj [("high", JNum (JS.Math_round (Math_max temps)));
                  ("low", JNum (JS.Math_round (Math_min temps)))])
     else throw (Error "Forecast data is invalid."))
    (fun error =>
       throw (Error ("Failed to fetch high/low temperatures: " +:+ toString error))).

Definition clearCache : M unit := storage_clear.

End Service.

(** ** Data model of the specification *)

(** The return type of [getCurrentLocation]:
    [{ latitude: number; longitude: number, city?: string }]. *)
Record Location : Type := {
  latitude : float;
  longitude : float;
  city : option string
}.

Definition Location_value (L : Location) : JSValue :=
  JObj (("latitude", JNum (latitude L)) :: ("longitude", JNum (longitude L))
        :: match city L with Some c => [("city", JStr c)] | None => [] end).

(** The freshness invariant of a cache entry, in the words of the
    specification: [now - timestamp < maxAge]. *)
Definition fresh (P : Platform) (now : float) (entry : JSValue) (maxAge : float) : bool :=
  PrimFloat.ltb (PrimFloat.sub now (ToNumber P (JS.own_prop entry "timestamp"))) maxAge.

(** [v] has an own property named [p]. *)
Definition has_field (p : string) (v : JSValue) : bool :=
  existsb (fun kv => String.eqb (fst kv) p) (JS.own_fields v).

(** The clock never runs backwards. *)
Definition monotone (clock : nat -> float) : Prop :=
  forall i j, i <= j -> PrimFloat.leb (clock i) (clock j) = true.

(** A 12-hour clock time as en-US writes it: the hour from 1 to 12 without
    a leading zero, a colon, the minutes on two digits, a space and AM or
    PM. The space is U+0020, or U+202F (here its three UTF-8 bytes) with
    recent locale data. *)
Definition narrow_space : string :=
  String (Ascii.ascii_of_nat 226)
    (String (Ascii.ascii_of_nat 128) (String (Ascii.ascii_of_nat 175) EmptyString)).

Definition clock12_text (hour minute : nat) (space half : string) : string :=
  pretty hour +:+ ":" +:+ (if Nat.ltb minute 10 then "0" else "") +:+ pretty minute
  +:+ space +:+ half.

Definition clock12 (text : string) : bool :=
  existsb (fun hour =>
    existsb (fun minute =>
      existsb (fun space =>
        existsb (fun half => String.eqb text (clock12_text hour minute space half))
                ["AM"; "PM"])
              [" "; narrow_space])
            (seq 0 60))
          (seq 1 12).

(** A time value [new Date(ms)] makes a valid date of: finite and within
    8.64e15 ms of the epoch. *)
Definition valid_time (ms : float) : bool :=
  PrimFloat.is_finite ms && PrimFloat.leb (PrimFloat.abs ms) 8.64e15%float.



(** ** A concrete device, for the examples *)

Module Sample.

(** A device in UTC, right on the numbers the examples use: the
    coordinates 0, 0 and the instant 1700000000 s. *)
Definition platform : Platform := {|
  weatherApiKey := "KEY";
  StringToNumber := fun _ => nan;
  ObjectToNumber := fun _ => nan;
  NumberToString := fun _ => "0";
  toFixed6 := fun _ => "0.000000";
  toLocaleTimeString := fun _ => "10:13 PM";
  nullish_read_message := fun v p => "Cannot read properties of undefined (reading '" +:+ p +:+ "')"
|}.

Definition noon : float := 1700000000000%float.

(** Online or offline, with one body for every URL, and a clock that
    reads [noon] first and one millisecond more from then on. *)
Definition env (online : bool) (body : Result JSValue) : Env := {|
  connected := Ok online;
  http := fun _ => body;
  position := Ok (zero, zero);
  clock := fun i => match i with O => noon | S _ => (noon + 1)%float end
|}.

Definition world (entries : list (string * JSValue)) : World :=
  {| store := list_to_map entries; trace := []; tick := 0 |}.

Definition forecast : JSValue :=
  JObj [("list", JArr [JObj [("main", JObj [("temp", JNum 3.2%float)])];
                       JObj [("main", JObj [("temp", JNum (-1.7)%float)])];
                       JObj [("main", JObj [("temp", JNum 10.0%float)])]])].

Definition weekly_key : string := "weekly_forecast_0_0".

Definition home : Location := {| latitude := 14.5%float; longitude := 121%float; city := Some "Manila" |}.

(** A store with a weekly entry written one second before [noon]. *)
Definition cached_world : World :=
  world [(weekly_key, JObj [("data", JStr "d"); ("timestamp", JNum (noon - 1000)%float)])].

(** A store with a current location and a weekly entry. *)
Definition located_world : World :=
  world [("currentLocation", Location_value home);
         (weekly_key, JObj [("data", JStr "d"); ("timestamp", JNum (noon - 1000)%float)])].

Definition sunrise_only : JSValue :=
  JObj [("sys", JObj [("sunrise", JNum 1700000000%float)])].
Definition bare : JSValue := JObj [("name", JStr "Manila")].

End Sample.

(** ** The selected location and the start-up of the service *)

(** A call on [selectedLocationSubject]. *)
Inductive Signal : Type :=
| Next (value : JSValue)
| Complete.

(** The service instance around the world: the calls made on its
    BehaviorSubject and the errors handed to [console.error], latest
    first. What RxJS makes of the calls is not modelled. *)
Record Session : Type := {
  world : World;
  subject : list Signal;
  console : list Thrown
}.

(** The object [{ latitude, longitude, city }] with an optional [city]
    argument: the property is there, holding undefined, when it is omitted. *)
Definition selected_location (latitude longitude : float) (city : option string) : JSValue :=
  JObj [("latitude", JNum latitude); ("longitude", JNum longitude);
        ("city", match city with Some c => JStr c | None => JUndefined end)].

Definition setSelectedLocation (latitude longitude : float) (city : option string) (s : Session)
  : Session :=
  let location := selected_location latitude longitude city in
  {| world := snd (storage_set "selectedLocation" location (world s));
     subject := Next location :: subject s;
     console := console s |}.

Definition ngOnDestroy (s : Session) : Session :=
  {| world := world s; subject := Complete :: subject s; console := console s |}.

(** The URL [getCityName] asks, and the key of the hourly accessor. *)
Definition reverse_url (P : Platform) (latitude longitude : float) : string :=
  "https://nominatim.openstreetmap.org/reverse?format=json&lat="
  +:+ NumberToString P latitude +:+ "&lon=" +:+ NumberToString P longitude.
Definition hourly_cacheKey (P : Platform) (latitude longitude : float) : string :=
  "weather_" +:+ toFixed6 P latitude +:+ "_" +:+ toFixed6 P longitude.

(** The object [getCurrentLocation] builds online. *)
Definition current_location (latitude longitude : float) (cityName : JSValue) : JSValue :=
  JObj [("latitude", JNum latitude); ("longitude", JNum longitude); ("city", cityName)].

(** Neither null nor undefined. *)
Definition defined (v : JSValue) : bool :=
  match v with JUndefined | JNull => false | _ => true end.

(** [entry.main.temp] can be read: [entry] and [entry.main] are defined. *)
Definition readable (entry : JSValue) : bool :=
  defined entry && defined (JS.own_prop entry "main").

Section Startup.

Variable P : Platform.
Variable E : Env.

(** The text of the TypeError for calling [v.p] when it is not a function. *)
Variable not_a_function_message : JSValue -> string -> string.

Local Open Scope js_scope.

(** [v.toFixed(6)] on a value of type [any]. *)
Definition toFixed6_of (v : JSValue) : M string :=
  match v with
  | JNum n => ret (toFixed6 P n)
  | JUndefined | JNull => throw (TypeError (nullish_read_message P v "toFixed"))
  | _ => throw (TypeError (not_a_function_message v "toFixed"))
  end.

(** [this.getWeatherData(latitude, longitude);] as a statement: the cache
    key is computed, which needs two numbers, and the Observable is
    dropped unsubscribed, so that nothing is fetched, read or written. *)
Definition call_getWeatherData (latitude longitude : JSValue) : M unit :=
  toFixed6_of latitude ;;; toFixed6_of longitude ;;; ret tt.

(** The [try] block of [initialize]. *)
Definition initialize_body : M unit :=
  online <- isOnline E ;;
  if online : bool then
    location <- getCurrentLocation P E ;;
    latitude <- get_prop P location "latitude" ;;
    longitude <- get_prop P location "longitude" ;;
    call_getWeatherData latitude longitude
  else
    cachedLocation <- storage_get "currentLocation" ;;
    if JS.truthy cachedLocation then
      latitude <- get_prop P cachedLocation "latitude" ;;
      longitude <- get_prop P cachedLocation "longitude" ;;
      call_getWeatherData latitude longitude
    else alert "You are offline and no cached location is available.".

(** [initialize]: whatever the body throws goes to [console.error]. *)
Definition initialize (s : Session) : Session :=
  match initialize_body (world s) with
  | (Ok _, w') => {| world := w'; subject := subject s; console := console s |}
  | (Err error, w') => {| world := w'; subject := subject s; console := error :: console s |}
  end.

End Startup.

(** ** More devices, for the examples *)

Module Trial.

(** Online, with the device position ([Err] when the provider fails) and
    the body of every HTTP response. *)
Definition env (where_ : Result (float * float)) (body : Result JSValue) : Env := {|
  connected := Ok true;
  http := fun _ => body;
  position := where_;
  clock := fun i => match i with O => Sample.noon | S _ => (Sample.noon + 1)%float end
|}.

Definition denied : Thrown := Rejected "User denied Geolocation".

Definition place : JSValue := JObj [("display_name", JStr "Manila")].

Definition session (w : World) : Session := {| world := w; subject := []; console := [] |}.

Definition not_a_function (v : JSValue) (p : string) : string := p +:+ " is not a function".

(** A forecast whose second entry has no [main], and one whose second
    entry has a [main] without [temp]. *)
Definition broken : JSValue :=
  JObj [("list", JArr [JObj [("main", JObj [("temp", JNum 3.2%float)])];
                       JObj [("dt", JNum 1700000000%float)]])].

End Trial.
Local Open Scope float_scope.
Example round_2_5 : JS.Math_round 2.5 = 3. Proof. reflexivity. Qed.
Example round_m2_5 : JS.Math_round (-2.5) = -2. Proof. reflexivity. Qed.
Example round_m1_7 : JS.Math_round (-1.7) = -2. Proof. reflexivity. Qed.
Example round_3_2 : JS.Math_round 3.2 = 3. Proof. reflexivity. Qed.
Example round_10 : JS.Math_round 10 = 10. Proof. reflexivity. Qed.
Example round_small : JS.Math_round 0.49999999999999994 = 0. Proof. reflexivity. Qed.
Example round_negsmall : JS.Math_round (-0.2) = neg_zero. Proof. reflexivity. Qed.
Example round_half : JS.Math_round 0.5 = 1. Proof. reflexivity. Qed.
Example round_big : JS.Math_round 4503599627370495.5 = 4503599627370496. Proof. reflexivity. Qed.
Example round_inf : JS.Math_round neg_infinity = neg_infinity. Proof. reflexivity. Qed.
Example max_ex : JS.max_numbers [3.2; -1.7; 10] = 10. Proof. reflexivity. Qed.
Example min_ex : JS.min_numbers [3.2; -1.7; 10] = -1.7. Proof. reflexivity. Qed.
Example max_empty : JS.max_numbers [] = neg_infinity. Proof. reflexivity. Qed.
Example max_zero : JS.max_numbers [neg_zero; 0] = 0. Proof. reflexivity. Qed.
Example own_ex : JS.own_prop (JArr [JNull; JBool true]) "1" = JBool true. Proof. reflexivity. Qed.
Example own_len : JS.own_prop (JArr [JNull; JBool true]) "length" = JNum 2. Proof. reflexivity. Qed.

(** The service on the sample device. *)

Example highlow_runs :
  fst (getHighLowTemperature Sample.platform (Sample.env true (Ok Sample.forecast)) zero zero (Sample.world []))
  = Ok (JObj [("high", JNum 10); ("low", JNum (-2))]).
Proof. vm_compute. reflexivity. Qed.

Example online_fetch_caches :
  store (snd (getWeeklyWeather Sample.platform (Sample.env true (Ok JNull)) zero zero (Sample.world [])))
    !! Sample.weekly_key
  = Some (JObj [("data", JNull); ("timestamp", JNum Sample.noon)]).
Proof. vm_compute. reflexivity. Qed.

Example offline_fresh_entry :
  fst (getWeeklyWeather Sample.platform (Sample.env false (Ok JNull)) zero zero
         (Sample.world [(Sample.weekly_key,
                         JObj [("data", JStr "d"); ("timestamp", JNum (Sample.noon - 599999))])]))
  = Ok (JStr "d").
Proof. vm_compute. reflexivity. Qed.

Example offline_stale_entry :
  fst (getWeeklyWeather Sample.platform (Sample.env false (Ok JNull)) zero zero
         (Sample.world [(Sample.weekly_key,
                         JObj [("data", JStr "d"); ("timestamp", JNum (Sample.noon - 600000))])]))
  = Err (Error "No valid cached data available").
Proof. vm_compute. reflexivity. Qed.

Example http_failure :
  getWeatherData Sample.platform (Sample.env true (Err (Rejected "[object Object]"))) zero zero (Sample.world [])
  = (Err (Error "Failed to fetch weather data."),
     {| store := ∅;
        trace := [Alert "Error fetching weather data: Error: Failed to fetch data.";
                  Alert "Error fetching data:[object Object]";
                  HttpGet "https://api.openweathermap.org/data/2.5/weather?lat=0&lon=0&units=metric&appid=KEY"];
        tick := 0 |}).
Proof. vm_compute. reflexivity. Qed.

Example sunrise_converted :
  fst (getWeatherData Sample.platform
         (Sample.env true (Ok (JObj [("main", JObj []); ("sys", JObj [("sunrise", JNum 1700000000)])])))
         zero zero (Sample.world []))
  = Ok (JObj [("main", JObj []); ("sys", JObj [("sunrise", JNum 1700000000)]);
              ("sunrise", JStr "10:13 PM"); ("sunset", JNull)]).
Proof. vm_compute. reflexivity. Qed.

(** The 12-hour clock format. *)

Example clock12_evening : clock12 "10:13 PM" = true. Proof. reflexivity. Qed.
Example clock12_midnight : clock12 "12:00 AM" = true. Proof. reflexivity. Qed.
Example clock12_narrow : clock12 ("7:05" +:+ narrow_space +:+ "AM") = true. Proof. reflexivity. Qed.
Example clock12_not_24h : clock12 "22:13" = false. Proof. reflexivity. Qed.
Example clock12_no_hour_zero : clock12 "0:13 AM" = false. Proof. reflexivity. Qed.
Example clock12_no_padding : clock12 "07:05 AM" = false. Proof. reflexivity. Qed.
Example clock12_invalid_date : clock12 "Invalid Date" = false. Proof. reflexivity. Qed.
Example valid_time_sunrise : valid_time 1700000000000 = true. Proof. reflexivity. Qed.
Example valid_time_nan : valid_time nan = false. Proof. reflexivity. Qed.

(** * Properties *)

(** ** Running a computation step by step *)

Lemma bind_ok {A B} (m : M A) (k : A -> M B) (w w' : World) (a : A) :
  m w = (Ok a, w') -> bind m k w = k a w'.
Proof. intros Hm. unfold bind. now rewrite Hm. Qed.

Lemma bind_err {A B} (m : M A) (k : A -> M B) (w w' : World) (e : Thrown) :
  m w = (Err e, w') -> bind m k w = (Err e, w').
Proof. intros Hm. unfold bind. now rewrite Hm. Qed.

Lemma catchError_ok {A} (m : M A) (h : Thrown -> M A) (w w' : World) (a : A) :
  m w = (Ok a, w') -> catchError m h w = (Ok a, w').
Proof. intros Hm. unfold catchError. now rewrite Hm. Qed.

Lemma catchError_err {A} (m : M A) (h : Thrown -> M A) (w w' : World) (e : Thrown) :
  m w = (Err e, w') -> catchError m h w = h e w'.
Proof. intros Hm. unfold catchError. now rewrite Hm. Qed.

(** ** Properties of values *)

Lemma lookup_field_absent (p : string) (fields : list (string * JSValue)) :
  existsb (fun kv => String.eqb (fst kv) p) fields = false ->
  JS.lookup_field p fields = JUndefined.
Proof.
  induction fields as [|[k v] rest IH]; simpl; [reflexivity|].
  destruct (String.eqb k p); simpl; [discriminate | exact IH].
Qed.

Lemma opt_chain_absent (v : JSValue) :
  has_field "main" v = false -> JS.opt_chain v "main" = JUndefined.
Proof.
  unfold has_field. intros H.
  destruct v; simpl; try reflexivity; now apply lookup_field_absent.
Qed.

(** A value with a property that holds an array is truthy and is neither
    null nor undefined. *)
Lemma holder_truthy (v : JSValue) (p : string) (elems : list JSValue) :
  JS.own_prop v p = JArr elems -> JS.truthy v = true /\ v <> JUndefined /\ v <> JNull.
Proof.
  destruct v; simpl; try discriminate; try (intros _; repeat split; discriminate).
  destruct s; simpl.
  - destruct (String.eqb p "length"); discriminate.
  - intros _. repeat split; discriminate.
Qed.

Lemma get_prop_defined (P : Platform) (v : JSValue) (p : string) (w : World) :
  v <> JUndefined -> v <> JNull -> get_prop P v p w = (Ok (JS.own_prop v p), w).
Proof. destruct v; intros H1 H2; try reflexivity; congruence. Qed.

Section Accessors.

Variable P : Platform.
Variable E : Env.

(** When the weekly data holds an array under [list], the outcome is that
    of mapping, rounding and wrapping. *)
Lemma getHighLowTemperature_on_list (lat lon : float) (w w' : World)
      (data : JSValue) (elems : list JSValue) :
  getWeeklyWeather P E lat lon w = (Ok data, w') ->
  JS.own_prop data "list" = JArr elems ->
  getHighLowTemperature P E lat lon w =
  catchError
    (bind (array_map (fun entry => bind (get_prop P entry "main") (fun main => get_prop P main "temp"))
                     elems)
          (fun temps => ret (JObj [("high", JNum (JS.Math_round (Math_max P temps)));
                                   ("low", JNum (JS.Math_round (Math_min P temps)))])))
    (fun error => throw (Error ("Failed to fetch high/low temperatures: " +:+ toString error)))
    w'.
Proof.
  intros Hweekly Hlist.
  destruct (holder_truthy _ _ _ Hlist) as (Htruthy & Hu & Hn).
  unfold getHighLowTemperature, catchError at 1.
  rewrite (bind_ok _ _ _ _ _ Hweekly), Htruthy.
  unfold bind at 1 2.
  rewrite (get_prop_defined P data "list" w' Hu Hn), Hlist. simpl.
  unfold bind at 1.
  rewrite (get_prop_defined P data "list" w' Hu Hn), Hlist.
  reflexivity.
Qed.

(** C8. [getVisibilityData(lat, lon)] is [getWeatherData(lat, lon)]: run
    from any world, the two deliver the same value or the same error and
    leave the same world behind (the same store written under the same
    cache key, the same requests and alerts). *)
Theorem getVisibilityData_is_getWeatherData (lat lon : float) (w : World) :
  getVisibilityData P E lat lon w = getWeatherData P E lat lon w.
Proof. reflexivity. Qed.

(** C10. When the fetch behind [getWeatherData] succeeds with a response
    that has no [main] property, [getWeatherData] delivers that response
    as it is, with nothing added and no further effect: no [sunrise] or
    [sunset] is set and no timestamp is converted. *)
Theorem getWeatherData_without_main (lat lon : float) (w w' : World) (data : JSValue) :
  fetchDataWithCache P E (weather_url P lat lon) (weather_cacheKey P lat lon) default_maxAge w
  = (Ok data, w') ->
  has_field "main" data = false ->
  getWeatherData P E lat lon w = (Ok data, w').
Proof.
  intros Hfetch Hmain.
  unfold getWeatherData. apply catchError_ok.
  rewrite (bind_ok _ _ _ _ _ Hfetch).
  now rewrite (opt_chain_absent data Hmain).
Qed.

(** C9. When the weekly fetch succeeds with a response whose [list] is the
    empty array, [getHighLowTemperature] does not fail with the invalid
    data error: it succeeds with [{ high: -Infinity, low: Infinity }], the
    rounded maximum and minimum of no numbers. *)
Theorem getHighLowTemperature_empty_list (lat lon : float) (w w' : World) (data : JSValue) :
  getWeeklyWeather P E lat lon w = (Ok data, w') ->
  JS.own_prop data "list" = JArr [] ->
  getHighLowTemperature P E lat lon w
  = (Ok (JObj [("high", JNum neg_infinity); ("low", JNum infinity)]), w').
Proof.
  intros Hweekly Hlist.
  rewrite (getHighLowTemperature_on_list lat lon w w' data [] Hweekly Hlist).
  reflexivity.
Qed.

(** C4. When the weekly fetch succeeds with a response whose [list] is
    [[{main:{temp:3.2}}, {main:{temp:-1.7}}, {main:{temp:10.0}}]],
    [getHighLowTemperature] delivers [{ high: 10, low: -2 }]. *)
Theorem getHighLowTemperature_example (lat lon : float) (w w' : World) (data : JSValue) :
  getWeeklyWeather P E lat lon w = (Ok data, w') ->
  JS.own_prop data "list" = JArr [JObj [("main", JObj [("temp", JNum 3.2)])];
                                  JObj [("main", JObj [("temp", JNum (-1.7))])];
                                  JObj [("main", JObj [("temp", JNum 10.0)])]] ->
  getHighLowTemperature P E lat lon w
  = (Ok (JObj [("high", JNum 10); ("low", JNum (-2))]), w').
Proof.
  intros Hweekly Hlist.
  rewrite (getHighLowTemperature_on_list lat lon w w' data _ Hweekly Hlist).
  reflexivity.
Qed.

End Accessors.

(** ** The cache-aware fetcher, the location resolver and the cache reset *)

(** Nothing is below a bound once NaN is subtracted from it. *)
Lemma sub_nan_not_below (now bound : float) :
  PrimFloat.ltb (PrimFloat.sub now nan) bound = false.
Proof.
  rewrite ltb_spec, sub_spec.
  replace (Prim2SF nan) with S754_nan by reflexivity.
  unfold SF64sub, SFsub. destruct (Prim2SF now); reflexivity.
Qed.

(** A falsy value has no [timestamp]: it is never fresh. *)
Lemma falsy_not_fresh (P : Platform) (now maxAge : float) (entry : JSValue) :
  JS.truthy entry = false -> fresh P now entry maxAge = false.
Proof.
  intros Hfalsy. unfold fresh.
  assert (JS.own_prop entry "timestamp" = JUndefined) as ->.
  { destruct entry; simpl in *; try reflexivity; try discriminate.
    destruct s; [reflexivity | discriminate]. }
  apply sub_nan_not_below.
Qed.

Lemma truthy_defined (v : JSValue) : JS.truthy v = true -> v <> JUndefined /\ v <> JNull.
Proof. destruct v; simpl; intros H; split; congruence. Qed.

Lemma Location_value_truthy (L : Location) : JS.truthy (Location_value L) = true.
Proof. reflexivity. Qed.

Lemma sample_clock_monotone (online : bool) (body : Result JSValue) :
  monotone (clock (Sample.env online body)).
Proof. intros [|i] [|j] Hle; simpl; try reflexivity. lia. Qed.

Section Cache.

Variable P : Platform.
Variable E : Env.

(** What an offline fetch does, case by case on what the store holds. *)
Lemma fetchDataWithCache_offline_run (endpoint cacheKey : string) (maxAge : float) (w : World) :
  connected E = Ok false ->
  fetchDataWithCache P E endpoint cacheKey maxAge w =
  match store w !! cacheKey with
  | Some entry =>
      if JS.truthy entry then
        (if fresh P (clock E (tick w)) entry maxAge then Ok (JS.own_prop entry "data")
         else Err (Error "No valid cached data available"), advance w)
      else (Err (Error "No valid cached data available"), w)
  | None => (Err (Error "No valid cached data available"), w)
  end.
Proof.
  intros Hoff. unfold fetchDataWithCache, bind, isOnline, storage_get. rewrite Hoff. simpl.
  destruct (store w !! cacheKey) as [entry|]; simpl; [|reflexivity].
  destruct (JS.truthy entry) eqn:Htruthy; [|reflexivity].
  destruct (truthy_defined entry Htruthy) as [Hu Hn].
  unfold Date_now. rewrite (get_prop_defined P entry "timestamp" _ Hu Hn).
  unfold ret, fresh.
  destruct (PrimFloat.ltb _ maxAge); [|reflexivity].
  now rewrite (get_prop_defined P entry "data" _ Hu Hn).
Qed.

(** C1. Offline, [fetchDataWithCache(endpoint, cacheKey, maxAge)] delivers
    a value exactly when there is an entry under [cacheKey] with
    [now - entry.timestamp < maxAge], and the value is then that entry's
    [data]; in every other case it fails with
    [Error('No valid cached data available')], so an entry that is not
    fresh is never delivered. It leaves the store as it was and makes no
    request. *)
Theorem fetchDataWithCache_offline (endpoint cacheKey : string) (maxAge : float) (w : World) :
  connected E = Ok false ->
  let now := clock E (tick w) in
  let run := fetchDataWithCache P E endpoint cacheKey maxAge w in
  (forall d, fst run = Ok d <->
             exists entry, store w !! cacheKey = Some entry
                           /\ fresh P now entry maxAge = true
                           /\ d = JS.own_prop entry "data")
  /\ ((~ exists entry, store w !! cacheKey = Some entry /\ fresh P now entry maxAge = true) ->
      fst run = Err (Error "No valid cached data available"))
  /\ store (snd run) = store w
  /\ trace (snd run) = trace w.
Proof.
  intros Hoff now run. subst run now.
  rewrite (fetchDataWithCache_offline_run endpoint cacheKey maxAge w Hoff).
  destruct (store w !! cacheKey) as [entry|] eqn:Hentry.
  - destruct (JS.truthy entry) eqn:Htruthy.
    + destruct (fresh P (clock E (tick w)) entry maxAge) eqn:Hfresh; simpl.
      * repeat split; auto.
        -- intros [= <-]. now exists entry.
        -- intros (entry' & [= <-] & _ & ->). reflexivity.
        -- intros Hnone. exfalso. apply Hnone. now exists entry.
      * repeat split; auto; try discriminate.
        intros (entry' & [= <-] & Hfresh' & _). congruence.
    + simpl. repeat split; auto; try discriminate.
      intros (entry' & [= <-] & Hfresh' & _).
      rewrite (falsy_not_fresh P _ maxAge entry Htruthy) in Hfresh'. discriminate.
  - simpl. repeat split; auto; try discriminate.
    intros (entry' & [=] & _).
Qed.

(** C2. Online, when the GET to [endpoint] succeeds with the body [D],
    [fetchDataWithCache] delivers [D] and leaves [{ data: D, timestamp: t }]
    in the store under [cacheKey], with [t] no later than what the clock
    reads once the call has completed. *)
Theorem fetchDataWithCache_online (endpoint cacheKey : string) (maxAge : float) (w : World)
        (D : JSValue) :
  connected E = Ok true ->
  http E endpoint = Ok D ->
  monotone (clock E) ->
  let run := fetchDataWithCache P E endpoint cacheKey maxAge w in
  fst run = Ok D
  /\ exists t,
       store (snd run) = <[cacheKey := JObj [("data", D); ("timestamp", JNum t)]]> (store w)
       /\ PrimFloat.leb t (clock E (tick (snd run))) = true.
Proof.
  intros Hon Hget Hclock run. subst run.
  unfold fetchDataWithCache, bind, isOnline, catchError, tap, bind, http_get.
  rewrite Hon. simpl. rewrite Hget. simpl.
  split; [reflexivity|].
  exists (clock E (tick w)). split; [reflexivity|].
  apply Hclock. lia.
Qed.

(** Offline, whatever truthy value sits under ['currentLocation'] is
    delivered, and the world is left untouched. *)
Lemma getCurrentLocation_offline_cached (w : World) (cached : JSValue) :
  connected E = Ok false ->
  store w !! "currentLocation" = Some cached ->
  JS.truthy cached = true ->
  getCurrentLocation P E w = (Ok cached, w).
Proof.
  intros Hoff Hcached Htruthy.
  unfold getCurrentLocation, catchError, bind, isOnline, storage_get.
  rewrite Hoff. simpl. rewrite Hcached. simpl. now rewrite Htruthy.
Qed.

(** C3. Offline, with the Location [L] stored under ['currentLocation'],
    [getCurrentLocation()] delivers exactly [L], and the world is the one
    it started from: the store is unchanged and the geolocation provider
    has not been asked. *)
Theorem getCurrentLocation_offline (L : Location) (w : World) :
  connected E = Ok false ->
  store w !! "currentLocation" = Some (Location_value L) ->
  getCurrentLocation P E w = (Ok (Location_value L), w).
Proof.
  intros Hoff Hstored.
  apply getCurrentLocation_offline_cached; auto using Location_value_truthy.
Qed.

(** C7. [clearCache()] succeeds and leaves the store empty, whatever it
    held. From then on, as long as the store is empty, every offline read
    fails for want of data: [fetchDataWithCache], for any key, with
    [Error('No valid cached data available')], and [getCurrentLocation]
    with [Error('No cached location available while offline.')]; both
    leave the store empty. *)
Theorem clearCache_then_offline_reads (w : World) :
  connected E = Ok false ->
  fst (clearCache w) = Ok tt
  /\ store (snd (clearCache w)) = ∅
  /\ forall w1, store w1 = ∅ ->
       (forall endpoint cacheKey maxAge,
           fetchDataWithCache P E endpoint cacheKey maxAge w1
           = (Err (Error "No valid cached data available"), w1))
       /\ fst (getCurrentLocation P E w1) = Err (Error "No cached location available while offline.")
       /\ store (snd (getCurrentLocation P E w1)) = ∅.
Proof.
  intros Hoff. split; [reflexivity|]. split; [reflexivity|].
  intros w1 Hempty. split; [|split].
  - intros endpoint cacheKey maxAge.
    rewrite (fetchDataWithCache_offline_run endpoint cacheKey maxAge w1 Hoff).
    now rewrite Hempty, lookup_empty.
  - unfold getCurrentLocation, catchError, bind, isOnline, storage_get.
    rewrite Hoff. simpl. now rewrite Hempty, lookup_empty.
  - unfold getCurrentLocation, catchError, bind, isOnline, storage_get.
    rewrite Hoff. simpl. now rewrite Hempty, lookup_empty.
Qed.

End Cache.

(** ** Failures of the high/low accessor and the sunrise conversion *)




Lemma own_prop_absent (v : JSValue) (p : string) :
  String.eqb p "length" = false -> has_field p v = false -> JS.own_prop v p = JUndefined.
Proof.
  unfold has_field. intros Hp Habsent.
  destruct v; simpl; rewrite ?Hp; try reflexivity; now apply lookup_field_absent.
Qed.

Section Failures.

Variable P : Platform.
Variable E : Env.

(** C5, as the code has it. When the weekly fetch succeeds with a response
    that has no array under [list], [getHighLowTemperature] fails with
    [Error('Failed to fetch high/low temperatures: Error: Forecast data is invalid.')]:
    the invalid data error is wrapped like any other. When the weekly
    fetch fails with [e], it fails with
    [Error('Failed to fetch high/low temperatures: ' + e)]. *)
Theorem getHighLowTemperature_failures (lat lon : float) (w w' : World) :
  (forall data,
      getWeeklyWeather P E lat lon w = (Ok data, w') ->
      JS.isArray (JS.opt_chain data "list") = false ->
      getHighLowTemperature P E lat lon w
      = (Err (Error "Failed to fetch high/low temperatures: Error: Forecast data is invalid."), w'))
  /\ (forall e,
      getWeeklyWeather P E lat lon w = (Err e, w') ->
      getHighLowTemperature P E lat lon w
      = (Err (Error ("Failed to fetch high/low temperatures: " +:+ toString e)), w')).
Proof.
  split.
  - intros data Hweekly Hnot.
    unfold getHighLowTemperature, catchError.
    rewrite (bind_ok _ _ _ _ _ Hweekly).
    destruct (JS.truthy data) eqn:Htruthy.
    + destruct (truthy_defined data Htruthy) as [Hu Hn].
      unfold bind at 1 2. rewrite (get_prop_defined P data "list" w' Hu Hn).
      replace (JS.opt_chain data "list") with (JS.own_prop data "list") in Hnot
        by (destruct data; try reflexivity; congruence).
      simpl. rewrite Hnot, andb_false_r. reflexivity.
    + reflexivity.
  - intros e Hweekly.
    unfold getHighLowTemperature, catchError.
    now rewrite (bind_err _ _ _ _ _ Hweekly).
Qed.


End Failures.

(** ** The theorems at work on the sample device *)

Lemma fetchDataWithCache_offline_witness :
  let P := Sample.platform in
  let E := Sample.env false (Ok JNull) in
  let w := Sample.cached_world in
  connected E = Ok false
  /\ (let now := clock E (tick w) in
      let run := fetchDataWithCache P E "https://example.org/" Sample.weekly_key default_maxAge w in
      (forall d, fst run = Ok d <->
                 exists entry, store w !! Sample.weekly_key = Some entry
                               /\ fresh P now entry default_maxAge = true
                               /\ d = JS.own_prop entry "data")
      /\ ((~ exists entry, store w !! Sample.weekly_key = Some entry
                           /\ fresh P now entry default_maxAge = true) ->
          fst run = Err (Error "No valid cached data available"))
      /\ store (snd run) = store w
      /\ trace (snd run) = trace w).
Proof.
  split; [reflexivity|].
  apply (fetchDataWithCache_offline Sample.platform (Sample.env false (Ok JNull))
           "https://example.org/" Sample.weekly_key default_maxAge Sample.cached_world).
  reflexivity.
Defined.

Lemma fetchDataWithCache_online_witness :
  let P := Sample.platform in
  let E := Sample.env true (Ok Sample.forecast) in
  let w := Sample.world [] in
  connected E = Ok true
  /\ http E "https://example.org/" = Ok Sample.forecast
  /\ monotone (clock E)
  /\ (let run := fetchDataWithCache P E "https://example.org/" Sample.weekly_key default_maxAge w in
      fst run = Ok Sample.forecast
      /\ exists t,
           store (snd run)
           = <[Sample.weekly_key := JObj [("data", Sample.forecast); ("timestamp", JNum t)]]> (store w)
           /\ PrimFloat.leb t (clock E (tick (snd run))) = true).
Proof.
  split; [reflexivity|]. split; [reflexivity|].
  split; [apply sample_clock_monotone|].
  apply (fetchDataWithCache_online Sample.platform (Sample.env true (Ok Sample.forecast))
           "https://example.org/" Sample.weekly_key default_maxAge (Sample.world []) Sample.forecast).
  - reflexivity.
  - reflexivity.
  - apply sample_clock_monotone.
Defined.

Lemma getCurrentLocation_offline_witness :
  let E := Sample.env false (Ok JNull) in
  connected E = Ok false
  /\ store Sample.located_world !! "currentLocation" = Some (Location_value Sample.home)
  /\ getCurrentLocation Sample.platform E Sample.located_world
     = (Ok (Location_value Sample.home), Sample.located_world).
Proof.
  split; [reflexivity|]. split; [vm_compute; reflexivity|].
  apply (getCurrentLocation_offline Sample.platform (Sample.env false (Ok JNull))
           Sample.home Sample.located_world).
  - reflexivity.
  - vm_compute; reflexivity.
Defined.

Lemma getHighLowTemperature_example_witness :
  let P := Sample.platform in
  let E := Sample.env true (Ok Sample.forecast) in
  let w := Sample.world [] in
  let w' := snd (getWeeklyWeather P E zero zero w) in
  getWeeklyWeather P E zero zero w = (Ok Sample.forecast, w')
  /\ JS.own_prop Sample.forecast "list"
     = JArr [JObj [("main", JObj [("temp", JNum 3.2)])];
             JObj [("main", JObj [("temp", JNum (-1.7))])];
             JObj [("main", JObj [("temp", JNum 10.0)])]]
  /\ getHighLowTemperature P E zero zero w
     = (Ok (JObj [("high", JNum 10); ("low", JNum (-2))]), w').
Proof.
  split; [reflexivity|]. split; [reflexivity|].
  apply (getHighLowTemperature_example Sample.platform (Sample.env true (Ok Sample.forecast))
           zero zero (Sample.world []) _ Sample.forecast).
  - reflexivity.
  - reflexivity.
Defined.

Lemma getHighLowTemperature_empty_list_witness :
  let P := Sample.platform in
  let E := Sample.env true (Ok (JObj [("list", JArr [])])) in
  let w := Sample.world [] in
  let w' := snd (getWeeklyWeather P E zero zero w) in
  getWeeklyWeather P E zero zero w = (Ok (JObj [("list", JArr [])]), w')
  /\ JS.own_prop (JObj [("list", JArr [])]) "list" = JArr []
  /\ getHighLowTemperature P E zero zero w
     = (Ok (JObj [("high", JNum neg_infinity); ("low", JNum infinity)]), w').
Proof.
  split; [reflexivity|]. split; [reflexivity|].
  apply (getHighLowTemperature_empty_list Sample.platform
           (Sample.env true (Ok (JObj [("list", JArr [])])))
           zero zero (Sample.world []) _ (JObj [("list", JArr [])])).
  - reflexivity.
  - reflexivity.
Defined.

Lemma getWeatherData_without_main_witness :
  let P := Sample.platform in
  let E := Sample.env true (Ok Sample.sunrise_only) in
  let w := Sample.world [] in
  let w' := snd (fetchDataWithCache P E (weather_url P zero zero) (weather_cacheKey P zero zero)
                   default_maxAge w) in
  fetchDataWithCache P E (weather_url P zero zero) (weather_cacheKey P zero zero) default_maxAge w
  = (Ok Sample.sunrise_only, w')
  /\ has_field "main" Sample.sunrise_only = false
  /\ getWeatherData P E zero zero w = (Ok Sample.sunrise_only, w').
Proof.
  split; [reflexivity|]. split; [reflexivity|].
  apply (getWeatherData_without_main Sample.platform (Sample.env true (Ok Sample.sunrise_only))
           zero zero (Sample.world []) _ Sample.sunrise_only).
  - reflexivity.
  - reflexivity.
Defined.

Lemma clearCache_then_offline_reads_witness :
  let P := Sample.platform in
  let E := Sample.env false (Ok JNull) in
  let w := Sample.located_world in
  connected E = Ok false
  /\ (fst (clearCache w) = Ok tt
      /\ store (snd (clearCache w)) = ∅
      /\ forall w1, store w1 = ∅ ->
           (forall endpoint cacheKey maxAge,
               fetchDataWithCache P E endpoint cacheKey maxAge w1
               = (Err (Error "No valid cached data available"), w1))
           /\ fst (getCurrentLocation P E w1) = Err (Error "No cached location available while offline.")
           /\ store (snd (getCurrentLocation P E w1)) = ∅).
Proof.
  split; [reflexivity|].
  apply (clearCache_then_offline_reads Sample.platform (Sample.env false (Ok JNull))
           Sample.located_world).
  reflexivity.
Defined.

Lemma getHighLowTemperature_failures_witness :
  let P := Sample.platform in
  let absent := Sample.env true (Ok Sample.bare) in
  let down := Sample.env true (Err (Rejected "[object Object]")) in
  let w := Sample.world [] in
  (getWeeklyWeather P absent zero zero w = (Ok Sample.bare, snd (getWeeklyWeather P absent zero zero w))
   /\ JS.isArray (JS.opt_chain Sample.bare "list") = false
   /\ getHighLowTemperature P absent zero zero w
      = (Err (Error "Failed to fetch high/low temperatures: Error: Forecast data is invalid."),
         snd (getWeeklyWeather P absent zero zero w)))
  /\ (getWeeklyWeather P down zero zero w
      = (Err (Error "Failed to fetch data."), snd (getWeeklyWeather P down zero zero w))
      /\ getHighLowTemperature P down zero zero w
         = (Err (Error "Failed to fetch high/low temperatures: Error: Failed to fetch data."),
            snd (getWeeklyWeather P down zero zero w))).
Proof.
  split.
  - split; [reflexivity|]. split; [reflexivity|].
    apply (proj1 (getHighLowTemperature_failures Sample.platform (Sample.env true (Ok Sample.bare))
                    zero zero (Sample.world []) _) Sample.bare).
    + reflexivity.
    + reflexivity.
  - split; [reflexivity|].
    apply (proj2 (getHighLowTemperature_failures Sample.platform
                    (Sample.env true (Err (Rejected "[object Object]")))
                    zero zero (Sample.world []) _) (Error "Failed to fetch data.")).
    reflexivity.
Defined.


(** ** Where the code departs from the specification *)

(** C5 as stated fails: a response without [list] does not make
    [getHighLowTemperature] fail with [Error('Forecast data is invalid.')];
    the error the caller gets is the wrapped one. *)
Lemma getHighLowTemperature_invalid_is_wrapped :
  let P := Sample.platform in
  let E := Sample.env true (Ok Sample.bare) in
  let w := Sample.world [] in
  fst (getWeeklyWeather P E zero zero w) = Ok Sample.bare
  /\ has_field "list" Sample.bare = false
  /\ fst (getHighLowTemperature P E zero zero w)
     = Err (Error "Failed to fetch high/low temperatures: Error: Forecast data is invalid.")
  /\ fst (getHighLowTemperature P E zero zero w) <> Err (Error "Forecast data is invalid.").
Proof.
  split; [reflexivity|]. split; [reflexivity|]. split; [reflexivity|].
  vm_compute. discriminate.
Qed.


(** * Further properties of the code *)

(** ** The cache-aware fetcher *)

(** No number is below itself. *)
Lemma ltb_irreflexive (x : float) : PrimFloat.ltb x x = false.
Proof.
  rewrite ltb_spec. unfold SFltb, SFcompare.
  destruct (Prim2SF x) as [s|s| |s m e]; try reflexivity.
  - now destruct s.
  - destruct s; rewrite Z.compare_refl; fold (Pos.compare m m); now rewrite Pos.compare_refl.
Qed.

Section Fetcher.

Variable P : Platform.
Variable E : Env.

(** What an online fetch does, case by case on the answer of the server. *)
Lemma fetchDataWithCache_online_run (endpoint cacheKey : string) (maxAge : float) (w : World) :
  connected E = Ok true ->
  fetchDataWithCache P E endpoint cacheKey maxAge w =
  match http E endpoint with
  | Ok data =>
      (Ok data,
       set_store (insert cacheKey (JObj [("data", data); ("timestamp", JNum (clock E (tick w)))]))
                 (advance (log (HttpGet endpoint) w)))
  | Err e =>
      (Err (Error "Failed to fetch data."),
       log (Alert ("Error fetching data:" +:+ toString e)) (log (HttpGet endpoint) w))
  end.
Proof.
  intros Hon.
  unfold fetchDataWithCache, bind, isOnline, catchError, tap, bind, http_get.
  rewrite Hon. simpl. now destruct (http E endpoint).
Qed.

(** Online, a failed request is never made good from the cache: the call
    fails with [Error('Failed to fetch data.')] after one alert that shows
    the cause, whatever the store holds under [cacheKey], and the store is
    left as it was. *)
Theorem fetchDataWithCache_online_failure (endpoint cacheKey : string) (maxAge : float)
        (w : World) (e : Thrown) :
  connected E = Ok true ->
  http E endpoint = Err e ->
  fetchDataWithCache P E endpoint cacheKey maxAge w
  = (Err (Error "Failed to fetch data."),
     {| store := store w;
        trace := Alert ("Error fetching data:" +:+ toString e) :: HttpGet endpoint :: trace w;
        tick := tick w |}).
Proof.
  intros Hon Hget.
  rewrite (fetchDataWithCache_online_run endpoint cacheKey maxAge w Hon), Hget.
  reflexivity.
Qed.

(** The only errors of the fetcher: offline the missing-data error, online
    the failed-fetch error, and the rejection of the status probe itself
    when the probe fails. *)
Theorem fetchDataWithCache_errors (endpoint cacheKey : string) (maxAge : float)
        (w : World) (e : Thrown) :
  fst (fetchDataWithCache P E endpoint cacheKey maxAge w) = Err e ->
  match connected E with
  | Ok false => e = Error "No valid cached data available"
  | Ok true => e = Error "Failed to fetch data."
  | Err probe => e = probe
  end.
Proof.
  destruct (connected E) as [[|]|probe] eqn:Hstatus.
  - rewrite (fetchDataWithCache_online_run endpoint cacheKey maxAge w Hstatus).
    destruct (http E endpoint); simpl; congruence.
  - rewrite (fetchDataWithCache_offline_run P E endpoint cacheKey maxAge w Hstatus).
    destruct (store w !! cacheKey) as [entry|]; [|simpl; congruence].
    destruct (JS.truthy entry); [|simpl; congruence].
    destruct (fresh P (clock E (tick w)) entry maxAge); simpl; congruence.
  - unfold fetchDataWithCache, bind, isOnline. rewrite Hstatus. simpl. congruence.
Qed.

(** The fetcher writes under its own [cacheKey] at most: every other key
    of the store holds afterwards what it held before, online or offline,
    on success and on failure. *)
Theorem fetchDataWithCache_frame (endpoint cacheKey : string) (maxAge : float)
        (w : World) (key : string) :
  key <> cacheKey ->
  store (snd (fetchDataWithCache P E endpoint cacheKey maxAge w)) !! key = store w !! key.
Proof.
  intros Hkey.
  destruct (connected E) as [[|]|probe] eqn:Hstatus.
  - rewrite (fetchDataWithCache_online_run endpoint cacheKey maxAge w Hstatus).
    destruct (http E endpoint); simpl; [|reflexivity].
    now apply lookup_insert_ne.
  - rewrite (fetchDataWithCache_offline_run P E endpoint cacheKey maxAge w Hstatus).
    destruct (store w !! cacheKey) as [entry|]; [|reflexivity].
    destruct (JS.truthy entry); reflexivity.
  - unfold fetchDataWithCache, bind, isOnline. rewrite Hstatus. reflexivity.
Qed.

(** The bound on the age is strict: offline, an entry whose age is exactly
    [maxAge] is not served. *)
Theorem fetchDataWithCache_age_limit (endpoint cacheKey : string) (maxAge : float)
        (w : World) (entry : JSValue) (t : float) :
  connected E = Ok false ->
  store w !! cacheKey = Some entry ->
  JS.own_prop entry "timestamp" = JNum t ->
  PrimFloat.sub (clock E (tick w)) t = maxAge ->
  fst (fetchDataWithCache P E endpoint cacheKey maxAge w)
  = Err (Error "No valid cached data available").
Proof.
  intros Hoff Hentry Hstamp Hage.
  rewrite (fetchDataWithCache_offline_run P E endpoint cacheKey maxAge w Hoff), Hentry.
  destruct (JS.truthy entry); [|reflexivity].
  unfold fresh. rewrite Hstamp. simpl. now rewrite Hage, ltb_irreflexive.
Qed.

End Fetcher.

(** What an online fetch has stored, an offline fetch of the same key gives
    back for as long as the entry is younger than the bound of the reader,
    and refuses from then on. *)
Theorem fetch_then_offline_read (P : Platform) (E1 E2 : Env) (endpoint endpoint' cacheKey : string)
        (maxAge maxAge' : float) (w : World) (D : JSValue) :
  connected E1 = Ok true ->
  http E1 endpoint = Ok D ->
  connected E2 = Ok false ->
  let w1 := snd (fetchDataWithCache P E1 endpoint cacheKey maxAge w) in
  let age := PrimFloat.sub (clock E2 (tick w1)) (clock E1 (tick w)) in
  fst (fetchDataWithCache P E2 endpoint' cacheKey maxAge' w1)
  = if PrimFloat.ltb age maxAge' then Ok D else Err (Error "No valid cached data available").
Proof.
  intros Hon Hget Hoff w1 age. subst age w1.
  rewrite (fetchDataWithCache_online_run P E1 endpoint cacheKey maxAge w Hon), Hget.
  rewrite (fetchDataWithCache_offline_run P E2 endpoint' cacheKey maxAge' _ Hoff).
  simpl. rewrite lookup_insert_eq. simpl. unfold fresh. simpl.
  now destruct (PrimFloat.ltb _ maxAge').
Qed.

(** ** The weather accessors *)

Lemma get_prop_pure (P : Platform) (v : JSValue) (p : string) (w : World) :
  snd (get_prop P v p w) = w.
Proof. now destruct v. Qed.

Lemma bind_snd {A B} (m : M A) (k : A -> M B) (w : World) :
  (forall a w', snd (k a w') = w') -> snd (bind m k w) = snd (m w).
Proof. intros Hk. unfold bind. destruct (m w) as [[a|e] w']; simpl; auto. Qed.

Lemma array_map_pure (f : JSValue -> M JSValue) (l : list JSValue) (w : World) :
  (forall x w', snd (f x w') = w') -> snd (array_map f l w) = w.
Proof.
  intros Hf. revert w. induction l as [|x rest IH]; intros w; simpl; [reflexivity|].
  rewrite bind_snd; [apply Hf|].
  intros y w'. rewrite bind_snd; [apply IH | reflexivity].
Qed.

(** Reading [entry.main.temp] of a readable entry. *)
Lemma read_temp (P : Platform) (entry : JSValue) (w : World) :
  readable entry = true ->
  bind (get_prop P entry "main") (fun main => get_prop P main "temp") w
  = (Ok (JS.own_prop (JS.own_prop entry "main") "temp"), w).
Proof.
  unfold readable. intros Hentry. apply andb_true_iff in Hentry as [Hd Hm].
  assert (get_prop P entry "main" w = (Ok (JS.own_prop entry "main"), w)) as Hmain.
  { apply get_prop_defined; intros ->; discriminate. }
  rewrite (bind_ok _ _ _ _ _ Hmain).
  apply get_prop_defined; intros Heq; rewrite Heq in Hm; discriminate.
Qed.


(** The first entry that cannot be read stops the mapping. *)
Lemma array_map_stops (P : Platform) (good rest : list JSValue) (bad : JSValue) (w : World)
      (e : Thrown) :
  Forall (fun entry => readable entry = true) good ->
  bind (get_prop P bad "main") (fun main => get_prop P main "temp") w = (Err e, w) ->
  array_map (fun entry => bind (get_prop P entry "main") (fun main => get_prop P main "temp"))
            (good ++ bad :: rest) w
  = (Err e, w).
Proof.
  intros Hgood Hbad. induction Hgood as [|entry good' Hentry Hgood' IH]; simpl.
  - now rewrite (bind_err _ _ _ _ _ Hbad).
  - rewrite (bind_ok _ _ _ _ _ (read_temp P entry w Hentry)).
    now rewrite (bind_err _ _ _ _ _ IH).
Qed.



Lemma weekly_key_apart (a b : string) : "weekly_forecast_" +:+ a <> "weather_" +:+ b.
Proof. simpl. discriminate. Qed.

Section Weather.

Variable P : Platform.
Variable E : Env.

(** After a fetch the store is the one before, or the one before with an
    entry put under [cacheKey]. *)
Lemma fetchDataWithCache_store (endpoint cacheKey : string) (maxAge : float) (w : World) :
  store (snd (fetchDataWithCache P E endpoint cacheKey maxAge w)) = store w
  \/ exists entry,
       store (snd (fetchDataWithCache P E endpoint cacheKey maxAge w))
       = <[cacheKey := entry]> (store w).
Proof.
  destruct (connected E) as [[|]|probe] eqn:Hstatus.
  - rewrite (fetchDataWithCache_online_run P E endpoint cacheKey maxAge w Hstatus).
    destruct (http E endpoint); simpl; [right; eauto | now left].
  - rewrite (fetchDataWithCache_offline_run P E endpoint cacheKey maxAge w Hstatus).
    destruct (store w !! cacheKey) as [entry|]; [|now left].
    destruct (JS.truthy entry); now left.
  - unfold fetchDataWithCache, bind, isOnline. rewrite Hstatus. now left.
Qed.

(** [getWeatherData] in terms of the fetch behind it. *)
Lemma getWeatherData_run (lat lon : float) (w : World) :
  let fetched := fetchDataWithCache P E (weather_url P lat lon) (weather_cacheKey P lat lon)
                   default_maxAge w in
  match fst fetched with
  | Ok _ => exists result, getWeatherData P E lat lon w = (Ok result, snd fetched)
  | Err cause =>
      getWeatherData P E lat lon w
      = (Err (Error "Failed to fetch weather data."),
         log (Alert ("Error fetching weather data: " +:+ toString cause)) (snd fetched))
  end.
Proof.
  intros fetched. subst fetched.
  destruct (fetchDataWithCache P E (weather_url P lat lon) (weather_cacheKey P lat lon)
              default_maxAge w) as [[data|cause] w'] eqn:Hfetch; simpl.
  - unfold getWeatherData, catchError. rewrite (bind_ok _ _ _ _ _ Hfetch).
    destruct (JS.truthy (JS.opt_chain data "main")) eqn:Hmain; [|eauto].
    assert (data <> JUndefined /\ data <> JNull) as [Hu Hn] by (split; intros ->; discriminate).
    unfold bind at 1. rewrite (get_prop_defined P data "sys" w' Hu Hn).
    set (source := if JS.truthy (JS.own_prop data "sys") then JS.own_prop data "sys" else JObj []).
    assert (source <> JUndefined /\ source <> JNull) as [Hsu Hsn].
    { subst source. destruct (JS.truthy (JS.own_prop data "sys")) eqn:Hsys;
        [now apply truthy_defined | split; discriminate]. }
    unfold bind at 1. rewrite (get_prop_defined P source "sunrise" w' Hsu Hsn).
    unfold bind at 1. rewrite (get_prop_defined P source "sunset" w' Hsu Hsn).
    eauto.
  - unfold getWeatherData, catchError. now rewrite (bind_err _ _ _ _ _ Hfetch).
Qed.


(** The world [getHighLowTemperature] leaves is the one the weekly fetch
    leaves. *)
Lemma getHighLowTemperature_world (lat lon : float) (w : World) :
  snd (getHighLowTemperature P E lat lon w) = snd (getWeeklyWeather P E lat lon w).
Proof.
  unfold getHighLowTemperature, catchError.
  set (body := bind (getWeeklyWeather P E lat lon) _).
  assert (snd (body w) = snd (getWeeklyWeather P E lat lon w)) as Hbody.
  { subst body. apply bind_snd. intros data w'.
    rewrite bind_snd.
    - destruct (JS.truthy data); [|reflexivity].
      rewrite bind_snd; [apply get_prop_pure | reflexivity].
    - intros [|] w''; [|reflexivity].
      rewrite bind_snd; [apply get_prop_pure|].
      intros list w3. rewrite bind_snd; [|reflexivity].
      apply array_map_pure. intros x w4.
      rewrite bind_snd; [apply get_prop_pure | intros; apply get_prop_pure]. }
  now destruct (body w) as [[result|cause] w'].
Qed.

(** [getHighLowTemperature] adds no effect of its own to those of the weekly
    fetch (no alert, no write), and every error it delivers is an Error
    whose message is ['Failed to fetch high/low temperatures: '] followed
    by the text of the cause. *)
Theorem getHighLowTemperature_effects (lat lon : float) (w : World) :
  snd (getHighLowTemperature P E lat lon w) = snd (getWeeklyWeather P E lat lon w)
  /\ forall e, fst (getHighLowTemperature P E lat lon w) = Err e ->
       exists cause, e = Error ("Failed to fetch high/low temperatures: " +:+ toString cause).
Proof.
  split; [apply getHighLowTemperature_world|].
  unfold getHighLowTemperature, catchError.
  destruct (bind (getWeeklyWeather P E lat lon) _ w) as [[result|cause] w']; [discriminate|].
  intros e [= <-]. now exists cause.
Qed.

(** One entry without [main] spoils the whole forecast: the call fails with
    the wrapped TypeError of reading [temp] of undefined, however many good
    entries surround it. *)
Theorem getHighLowTemperature_entry_without_main (lat lon : float) (w w' : World)
        (data bad : JSValue) (good rest : list JSValue) :
  getWeeklyWeather P E lat lon w = (Ok data, w') ->
  JS.own_prop data "list" = JArr (good ++ bad :: rest) ->
  Forall (fun entry => readable entry = true) good ->
  defined bad = true ->
  has_field "main" bad = false ->
  getHighLowTemperature P E lat lon w
  = (Err (Error ("Failed to fetch high/low temperatures: "
                 +:+ toString (TypeError (nullish_read_message P JUndefined "temp")))), w').
Proof.
  intros Hweekly Hlist Hgood Hbad Hmain.
  rewrite (getHighLowTemperature_on_list P E lat lon w w' data _ Hweekly Hlist).
  assert (bind (get_prop P bad "main") (fun main => get_prop P main "temp") w'
          = (Err (TypeError (nullish_read_message P JUndefined "temp")), w')) as Hread.
  { unfold bind.
    rewrite (get_prop_defined P bad "main" w') by (intros ->; discriminate).
    now rewrite (own_prop_absent bad "main" eq_refl Hmain). }
  now rewrite (catchError_err _ _ _ _ _
                 (bind_err _ _ _ _ _ (array_map_stops P good rest bad w' _ Hgood Hread))).
Qed.


(** The weekly and the hourly accessor read the same URL but never share a
    cache entry: whatever a weekly call has just cached, an offline hourly
    call finds nothing under its own key unless it was there before. *)
Theorem weekly_cache_not_shared (E2 : Env) (lat lon lat' lon' : float) (w : World) :
  connected E2 = Ok false ->
  store w !! hourly_cacheKey P lat' lon' = None ->
  fst (getHourlyWeather P E2 lat' lon' (snd (getWeeklyWeather P E lat lon w)))
  = Err (Error "No valid cached data available").
Proof.
  intros Hoff Hnone. unfold hourly_cacheKey in Hnone.
  unfold getHourlyWeather.
  rewrite (fetchDataWithCache_offline_run P E2 _ _ _ _ Hoff).
  unfold getWeeklyWeather.
  destruct (fetchDataWithCache_store (forecast_url P lat lon)
              ("weekly_forecast_" +:+ NumberToString P lat +:+ "_" +:+ NumberToString P lon)
              default_maxAge w) as [-> | [entry ->]].
  - now rewrite Hnone.
  - rewrite lookup_insert_ne by apply weekly_key_apart. now rewrite Hnone.
Qed.

(** No weather accessor ever changes what is stored under
    ['currentLocation'] or ['selectedLocation']. *)
Theorem accessors_keep_locations (lat lon : float) (w : World) (key : string) :
  key = "currentLocation" \/ key = "selectedLocation" ->
  store (snd (getWeatherData P E lat lon w)) !! key = store w !! key
  /\ store (snd (getWeeklyWeather P E lat lon w)) !! key = store w !! key
  /\ store (snd (getHourlyWeather P E lat lon w)) !! key = store w !! key
  /\ store (snd (getHighLowTemperature P E lat lon w)) !! key = store w !! key.
Proof.
  intros Hkey.
  assert (forall endpoint cacheKey,
             key <> cacheKey ->
             store (snd (fetchDataWithCache P E endpoint cacheKey default_maxAge w)) !! key
             = store w !! key) as Hfetch.
  { intros endpoint cacheKey Hne.
    destruct (fetchDataWithCache_store endpoint cacheKey default_maxAge w)
      as [-> | [entry ->]]; [reflexivity|].
    apply lookup_insert_ne. congruence. }
  assert (store (snd (getWeeklyWeather P E lat lon w)) !! key = store w !! key) as Hweekly.
  { unfold getWeeklyWeather. apply Hfetch. destruct Hkey as [-> | ->]; simpl; discriminate. }
  repeat split.
  - pose proof (getWeatherData_run lat lon w) as Hrun. simpl in Hrun.
    assert (store (snd (fetchDataWithCache P E (weather_url P lat lon) (weather_cacheKey P lat lon)
                          default_maxAge w)) !! key = store w !! key) as Hstore.
    { apply Hfetch. unfold weather_cacheKey. destruct Hkey as [-> | ->]; simpl; discriminate. }
    destruct (fst (fetchDataWithCache P E (weather_url P lat lon) (weather_cacheKey P lat lon)
                     default_maxAge w)).
    + destruct Hrun as [result ->]. exact Hstore.
    + rewrite Hrun. exact Hstore.
  - exact Hweekly.
  - unfold getHourlyWeather. apply Hfetch. destruct Hkey as [-> | ->]; simpl; discriminate.
  - now rewrite getHighLowTemperature_world.
Qed.

End Weather.

(** ** The location resolver *)

(** What [getCurrentLocation] does offline. *)
Lemma getCurrentLocation_offline_run (P : Platform) (E : Env) (w : World) :
  connected E = Ok false ->
  getCurrentLocation P E w =
  let cached := default JNull (store w !! "currentLocation") in
  if JS.truthy cached then (Ok cached, w)
  else (Err (Error "No cached location available while offline."),
        log (Alert "Error getting location: Error: No cached location available while offline.")
            (log (Alert "You are offline and no cached location is available.") w)).
Proof.
  intros Hoff.
  unfold getCurrentLocation, catchError, bind, isOnline, storage_get.
  rewrite Hoff. simpl.
  now destruct (JS.truthy (default JNull (store w !! "currentLocation"))).
Qed.

Section Resolver.

Variable P : Platform.
Variable E : Env.

(** What [getCurrentLocation] does online, case by case on the answers of
    the geolocation provider and of the reverse geocoder. *)
Lemma getCurrentLocation_online_run (w : World) :
  connected E = Ok true ->
  getCurrentLocation P E w =
  match position E with
  | Err e =>
      (Err e, log (Alert ("Error getting location: " +:+ toString e)) (log GetCurrentPosition w))
  | Ok (lat, lon) =>
      match http E (reverse_url P lat lon) with
      | Ok cityName =>
          (Ok (current_location lat lon cityName),
           set_store (insert "currentLocation" (current_location lat lon cityName))
                     (log (HttpGet (reverse_url P lat lon)) (log GetCurrentPosition w)))
      | Err _ =>
          (Err (Error "Failed to get city name."),
           log (Alert "Error getting location: Error: Failed to get city name.")
               (log (HttpGet (reverse_url P lat lon)) (log GetCurrentPosition w)))
      end
  end.
Proof.
  intros Hon.
  unfold getCurrentLocation, catchError, bind, isOnline, Geolocation_getCurrentPosition.
  rewrite Hon. simpl.
  destruct (position E) as [[lat lon]|e]; [|reflexivity].
  unfold getCityName, catchError, http_get. fold (reverse_url P lat lon).
  now destruct (http E (reverse_url P lat lon)).
Qed.

(** Online, with a position and a city name, [getCurrentLocation] delivers
    [{ latitude, longitude, city }] after one geolocation request and one
    reverse-geocoding request, and persists it: an offline call made next
    delivers the same object and touches nothing. *)
Theorem getCurrentLocation_online_then_offline (E2 : Env) (w : World) (lat lon : float)
        (cityName : JSValue) :
  connected E = Ok true ->
  position E = Ok (lat, lon) ->
  http E (reverse_url P lat lon) = Ok cityName ->
  connected E2 = Ok false ->
  let location := current_location lat lon cityName in
  let w1 := snd (getCurrentLocation P E w) in
  fst (getCurrentLocation P E w) = Ok location
  /\ trace w1 = HttpGet (reverse_url P lat lon) :: GetCurrentPosition :: trace w
  /\ getCurrentLocation P E2 w1 = (Ok location, w1).
Proof.
  intros Hon Hpos Hcity Hoff location w1. subst location w1.
  rewrite (getCurrentLocation_online_run w Hon), Hpos, Hcity. simpl.
  repeat split.
  rewrite (getCurrentLocation_offline_run P E2 _ Hoff). simpl.
  now rewrite lookup_insert_eq.
Qed.

(** Online failures of [getCurrentLocation]: a failure of the geolocation
    provider is rethrown as it is and no HTTP request is made; a failure of
    the reverse geocoder becomes [Error('Failed to get city name.')]. Either
    way one alert shows the error and nothing is persisted, not even the
    coordinates already obtained. *)
Theorem getCurrentLocation_online_failures (w : World) :
  connected E = Ok true ->
  (forall e, position E = Err e ->
     getCurrentLocation P E w
     = (Err e,
        {| store := store w;
           trace := Alert ("Error getting location: " +:+ toString e)
                    :: GetCurrentPosition :: trace w;
           tick := tick w |}))
  /\ (forall lat lon e, position E = Ok (lat, lon) ->
        http E (reverse_url P lat lon) = Err e ->
        getCurrentLocation P E w
        = (Err (Error "Failed to get city name."),
           {| store := store w;
              trace := Alert "Error getting location: Error: Failed to get city name."
                       :: HttpGet (reverse_url P lat lon) :: GetCurrentPosition :: trace w;
              tick := tick w |})).
Proof.
  intros Hon. split.
  - intros e Hpos. now rewrite (getCurrentLocation_online_run w Hon), Hpos.
  - intros lat lon e Hpos Hcity.
    now rewrite (getCurrentLocation_online_run w Hon), Hpos, Hcity.
Qed.

(** Offline with nothing usable under ['currentLocation'] (no entry, or a
    falsy one), [getCurrentLocation] shows two alerts, the offline notice
    and then the error itself, and fails with
    [Error('No cached location available while offline.')]. *)
Theorem getCurrentLocation_offline_missing (w : World) :
  connected E = Ok false ->
  JS.truthy (default JNull (store w !! "currentLocation")) = false ->
  getCurrentLocation P E w
  = (Err (Error "No cached location available while offline."),
     {| store := store w;
        trace := Alert "Error getting location: Error: No cached location available while offline."
                 :: Alert "You are offline and no cached location is available." :: trace w;
        tick := tick w |}).
Proof.
  intros Hoff Hmissing.
  rewrite (getCurrentLocation_offline_run P E w Hoff). simpl. now rewrite Hmissing.
Qed.

(** Whenever [getCurrentLocation] fails, in any environment, the store is
    what it was, and the latest alert shows the very error that is thrown. *)
Theorem getCurrentLocation_failure (w : World) (e : Thrown) :
  fst (getCurrentLocation P E w) = Err e ->
  store (snd (getCurrentLocation P E w)) = store w
  /\ exists rest,
       trace (snd (getCurrentLocation P E w))
       = Alert ("Error getting location: " +:+ toString e) :: rest.
Proof.
  destruct (connected E) as [[|]|probe] eqn:Hstatus.
  - rewrite (getCurrentLocation_online_run w Hstatus).
    destruct (position E) as [[lat lon]|e0].
    + destruct (http E (reverse_url P lat lon)); simpl; [discriminate|].
      intros [= <-]. eauto.
    + simpl. intros [= <-]. eauto.
  - rewrite (getCurrentLocation_offline_run P E w Hstatus). simpl.
    destruct (JS.truthy (default JNull (store w !! "currentLocation"))); simpl; [discriminate|].
    intros [= <-]. eauto.
  - unfold getCurrentLocation, catchError, bind, isOnline. rewrite Hstatus. simpl.
    intros [= <-]. eauto.
Qed.

End Resolver.

(** ** The selected location and the start-up *)

(** [setSelectedLocation] hands to the subject the object it persists under
    ['selectedLocation'], and what [getCurrentLocation] reports is the same
    after it as before, in every environment: the selected location never
    replaces the current one. *)
Theorem setSelectedLocation_keeps_current (P : Platform) (E : Env) (lat lon : float)
        (city : option string) (s : Session) :
  let s' := setSelectedLocation lat lon city s in
  let location := selected_location lat lon city in
  store (world s') !! "selectedLocation" = Some location
  /\ subject s' = Next location :: subject s
  /\ fst (getCurrentLocation P E (world s')) = fst (getCurrentLocation P E (world s)).
Proof.
  intros s' location. subst s' location. unfold setSelectedLocation. simpl.
  split; [apply lookup_insert_eq|]. split; [reflexivity|].
  destruct (connected E) as [[|]|probe] eqn:Hstatus.
  - rewrite !(getCurrentLocation_online_run P E _ Hstatus).
    destruct (position E) as [[lat' lon']|e]; [|reflexivity].
    now destruct (http E (reverse_url P lat' lon')).
  - rewrite !(getCurrentLocation_offline_run P E _ Hstatus). simpl.
    rewrite lookup_insert_ne by discriminate.
    now destruct (JS.truthy (default JNull (store (world s) !! "currentLocation"))).
  - unfold getCurrentLocation, catchError, bind, isOnline. now rewrite Hstatus.
Qed.

Lemma call_getWeatherData_pure (P : Platform) (naf : JSValue -> string -> string)
      (latitude longitude : JSValue) (w : World) :
  snd (call_getWeatherData P naf latitude longitude w) = w.
Proof.
  unfold call_getWeatherData.
  rewrite bind_snd; [now destruct latitude|].
  intros _ w'. rewrite bind_snd; [now destruct longitude | reflexivity].
Qed.

Lemma initialize_world (P : Platform) (E : Env) (naf : JSValue -> string -> string) (s : Session) :
  world (initialize P E naf s) = snd (initialize_body P E naf (world s))
  /\ subject (initialize P E naf s) = subject s.
Proof.
  unfold initialize. now destruct (initialize_body P E naf (world s)) as [[[]|e] w'].
Qed.

Section Startup_properties.

Variable P : Platform.
Variable E : Env.
Variable naf : JSValue -> string -> string.

(** [initialize] never fetches weather data: the Observable it builds is
    not subscribed. All it does to the world is what [getCurrentLocation]
    does when online, and one alert when offline with no cached location;
    with a cached location, or when the status probe fails, it leaves the
    world as it was. It makes no call on the subject. *)
Theorem initialize_never_fetches (s : Session) :
  world (initialize P E naf s) =
  match connected E with
  | Ok true => snd (getCurrentLocation P E (world s))
  | Ok false =>
      if JS.truthy (default JNull (store (world s) !! "currentLocation")) then world s
      else log (Alert "You are offline and no cached location is available.") (world s)
  | Err _ => world s
  end
  /\ subject (initialize P E naf s) = subject s.
Proof.
  destruct (initialize_world P E naf s) as [-> ->]. split; [|reflexivity].
  unfold initialize_body, isOnline, bind at 1.
  destruct (connected E) as [[|]|probe]; [| |reflexivity].
  - rewrite bind_snd; [reflexivity|].
    intros location w'. rewrite bind_snd; [apply get_prop_pure|].
    intros latitude w''. rewrite bind_snd; [apply get_prop_pure|].
    intros longitude w3. apply call_getWeatherData_pure.
  - unfold bind at 1, storage_get.
    destruct (JS.truthy (default JNull (store (world s) !! "currentLocation"))); [|reflexivity].
    rewrite bind_snd; [apply get_prop_pure|].
    intros latitude w''. rewrite bind_snd; [apply get_prop_pure|].
    intros longitude w3. apply call_getWeatherData_pure.
Qed.

(** Online, [initialize] hands to [console.error] exactly the error of
    [getCurrentLocation], if there is one, and nothing otherwise. *)
Theorem initialize_online_console (s : Session) :
  connected E = Ok true ->
  console (initialize P E naf s) =
  match fst (getCurrentLocation P E (world s)) with
  | Ok _ => console s
  | Err e => e :: console s
  end.
Proof.
  intros Hon. unfold initialize, initialize_body, isOnline, bind at 1. rewrite Hon.
  unfold bind at 1.
  rewrite (getCurrentLocation_online_run P E (world s) Hon).
  destruct (position E) as [[lat lon]|e]; [|reflexivity].
  now destruct (http E (reverse_url P lat lon)).
Qed.

(** Offline start-up. With a Location under ['currentLocation'],
    [initialize] does nothing at all: nothing is fetched, shown, written or
    logged. With nothing usable there, it shows the offline notice once
    and logs nothing. *)
Theorem initialize_offline (s : Session) :
  connected E = Ok false ->
  (forall L, store (world s) !! "currentLocation" = Some (Location_value L) ->
             initialize P E naf s = s)
  /\ (JS.truthy (default JNull (store (world s) !! "currentLocation")) = false ->
      initialize P E naf s
      = {| world := log (Alert "You are offline and no cached location is available.") (world s);
           subject := subject s;
           console := console s |}).
Proof.
  intros Hoff. split.
  - intros L Hcached.
    unfold initialize, initialize_body, isOnline, bind at 1. rewrite Hoff.
    unfold bind at 1, storage_get. rewrite Hcached. simpl. now destruct s.
  - intros Hmissing.
    unfold initialize, initialize_body, isOnline, bind at 1. rewrite Hoff.
    unfold bind at 1, storage_get. now rewrite Hmissing.
Qed.

End Startup_properties.

(** ** The further properties at work on the sample devices *)

Lemma fetchDataWithCache_online_failure_witness :
  let E := Sample.env true (Err (Rejected "[object Object]")) in
  let w := Sample.cached_world in
  connected E = Ok true
  /\ http E "https://example.org/" = Err (Rejected "[object Object]")
  /\ fetchDataWithCache Sample.platform E "https://example.org/" Sample.weekly_key default_maxAge w
     = (Err (Error "Failed to fetch data."),
        {| store := store w;
           trace := Alert ("Error fetching data:" +:+ toString (Rejected "[object Object]"))
                    :: HttpGet "https://example.org/" :: trace w;
           tick := tick w |}).
Proof.
  split; [reflexivity|]. split; [reflexivity|].
  apply (fetchDataWithCache_online_failure Sample.platform
           (Sample.env true (Err (Rejected "[object Object]")))
           "https://example.org/" Sample.weekly_key default_maxAge Sample.cached_world
           (Rejected "[object Object]")); reflexivity.
Defined.

Lemma fetchDataWithCache_errors_witness :
  let E := Sample.env false (Ok JNull) in
  let e := Error "No valid cached data available" in
  fst (fetchDataWithCache Sample.platform E "https://example.org/" Sample.weekly_key default_maxAge
         (Sample.world [])) = Err e
  /\ match connected E with
     | Ok false => e = Error "No valid cached data available"
     | Ok true => e = Error "Failed to fetch data."
     | Err probe => e = probe
     end.
Proof.
  split; [reflexivity|].
  apply (fetchDataWithCache_errors Sample.platform (Sample.env false (Ok JNull))
           "https://example.org/" Sample.weekly_key default_maxAge (Sample.world [])).
  reflexivity.
Defined.

Lemma fetchDataWithCache_frame_witness :
  let E := Sample.env true (Ok Sample.forecast) in
  "currentLocation" <> Sample.weekly_key
  /\ store (snd (fetchDataWithCache Sample.platform E "https://example.org/" Sample.weekly_key
                   default_maxAge Sample.located_world)) !! "currentLocation"
     = store Sample.located_world !! "currentLocation".
Proof.
  split; [discriminate|].
  apply (fetchDataWithCache_frame Sample.platform (Sample.env true (Ok Sample.forecast))
           "https://example.org/" Sample.weekly_key default_maxAge Sample.located_world
           "currentLocation").
  discriminate.
Defined.

Lemma fetchDataWithCache_age_limit_witness :
  let E := Sample.env false (Ok JNull) in
  let entry := JObj [("data", JStr "d"); ("timestamp", JNum (Sample.noon - 600000))] in
  let w := Sample.world [(Sample.weekly_key, entry)] in
  connected E = Ok false
  /\ store w !! Sample.weekly_key = Some entry
  /\ JS.own_prop entry "timestamp" = JNum (Sample.noon - 600000)
  /\ PrimFloat.sub (clock E (tick w)) (Sample.noon - 600000) = default_maxAge
  /\ fst (fetchDataWithCache Sample.platform E "https://example.org/" Sample.weekly_key
            default_maxAge w)
     = Err (Error "No valid cached data available").
Proof.
  split; [reflexivity|]. split; [reflexivity|]. split; [reflexivity|]. split; [reflexivity|].
  apply (fetchDataWithCache_age_limit Sample.platform (Sample.env false (Ok JNull))
           "https://example.org/" Sample.weekly_key default_maxAge
           (Sample.world [(Sample.weekly_key,
                           JObj [("data", JStr "d"); ("timestamp", JNum (Sample.noon - 600000))])])
           (JObj [("data", JStr "d"); ("timestamp", JNum (Sample.noon - 600000))])
           (Sample.noon - 600000)); reflexivity.
Defined.

Lemma fetch_then_offline_read_witness :
  let P := Sample.platform in
  let E1 := Sample.env true (Ok Sample.forecast) in
  let E2 := Sample.env false (Ok JNull) in
  let w := Sample.world [] in
  connected E1 = Ok true
  /\ http E1 "https://example.org/" = Ok Sample.forecast
  /\ connected E2 = Ok false
  /\ (let w1 := snd (fetchDataWithCache P E1 "https://example.org/" Sample.weekly_key
                       default_maxAge w) in
      let age := PrimFloat.sub (clock E2 (tick w1)) (clock E1 (tick w)) in
      fst (fetchDataWithCache P E2 "https://example.org/" Sample.weekly_key default_maxAge w1)
      = if PrimFloat.ltb age default_maxAge then Ok Sample.forecast
        else Err (Error "No valid cached data available")).
Proof.
  split; [reflexivity|]. split; [reflexivity|]. split; [reflexivity|].
  apply (fetch_then_offline_read Sample.platform (Sample.env true (Ok Sample.forecast))
           (Sample.env false (Ok JNull)) "https://example.org/" "https://example.org/"
           Sample.weekly_key default_maxAge default_maxAge (Sample.world []) Sample.forecast);
    reflexivity.
Defined.


Lemma getHighLowTemperature_effects_witness :
  let P := Sample.platform in
  let E := Sample.env true (Ok Sample.bare) in
  let w := Sample.world [] in
  let e := Error "Failed to fetch high/low temperatures: Error: Forecast data is invalid." in
  fst (getHighLowTemperature P E zero zero w) = Err e
  /\ snd (getHighLowTemperature P E zero zero w) = snd (getWeeklyWeather P E zero zero w)
  /\ exists cause, e = Error ("Failed to fetch high/low temperatures: " +:+ toString cause).
Proof.
  split; [reflexivity|].
  destruct (getHighLowTemperature_effects Sample.platform (Sample.env true (Ok Sample.bare))
              zero zero (Sample.world [])) as [Hworld Herrors].
  split; [exact Hworld|].
  apply Herrors. reflexivity.
Defined.

Lemma getHighLowTemperature_entry_without_main_witness :
  let P := Sample.platform in
  let E := Sample.env true (Ok Trial.broken) in
  let w := Sample.world [] in
  let w' := snd (getWeeklyWeather P E zero zero w) in
  let good := [JObj [("main", JObj [("temp", JNum 3.2)])]] in
  let bad := JObj [("dt", JNum 1700000000)] in
  getWeeklyWeather P E zero zero w = (Ok Trial.broken, w')
  /\ JS.own_prop Trial.broken "list" = JArr (good ++ bad :: [])
  /\ Forall (fun entry => readable entry = true) good
  /\ defined bad = true
  /\ has_field "main" bad = false
  /\ getHighLowTemperature P E zero zero w
     = (Err (Error ("Failed to fetch high/low temperatures: "
                    +:+ toString (TypeError (nullish_read_message P JUndefined "temp")))), w').
Proof.
  assert (Forall (fun entry => readable entry = true)
                 [JObj [("main", JObj [("temp", JNum 3.2)])]]) as Hgood
    by (constructor; [reflexivity | constructor]).
  split; [reflexivity|]. split; [reflexivity|]. split; [exact Hgood|].
  split; [reflexivity|]. split; [reflexivity|].
  apply (getHighLowTemperature_entry_without_main Sample.platform
           (Sample.env true (Ok Trial.broken)) zero zero (Sample.world []) _ Trial.broken
           (JObj [("dt", JNum 1700000000)])
           [JObj [("main", JObj [("temp", JNum 3.2)])]] []);
    try reflexivity. exact Hgood.
Defined.


Lemma weekly_cache_not_shared_witness :
  let P := Sample.platform in
  let E := Sample.env true (Ok Sample.forecast) in
  let E2 := Sample.env false (Ok JNull) in
  let w := Sample.world [] in
  connected E2 = Ok false
  /\ store w !! hourly_cacheKey P zero zero = None
  /\ fst (getHourlyWeather P E2 zero zero (snd (getWeeklyWeather P E zero zero w)))
     = Err (Error "No valid cached data available").
Proof.
  split; [reflexivity|]. split; [reflexivity|].
  apply (weekly_cache_not_shared Sample.platform (Sample.env true (Ok Sample.forecast))
           (Sample.env false (Ok JNull)) zero zero zero zero (Sample.world [])); reflexivity.
Defined.

Lemma accessors_keep_locations_witness :
  let P := Sample.platform in
  let E := Sample.env true (Ok Sample.forecast) in
  let w := Sample.located_world in
  let key := "currentLocation" in
  (key = "currentLocation" \/ key = "selectedLocation")
  /\ store (snd (getWeatherData P E zero zero w)) !! key = store w !! key
  /\ store (snd (getWeeklyWeather P E zero zero w)) !! key = store w !! key
  /\ store (snd (getHourlyWeather P E zero zero w)) !! key = store w !! key
  /\ store (snd (getHighLowTemperature P E zero zero w)) !! key = store w !! key.
Proof.
  split; [left; reflexivity|].
  apply (accessors_keep_locations Sample.platform (Sample.env true (Ok Sample.forecast))
           zero zero Sample.located_world "currentLocation").
  left; reflexivity.
Defined.

Lemma getCurrentLocation_online_then_offline_witness :
  let P := Sample.platform in
  let E := Trial.env (Ok (zero, zero)) (Ok Trial.place) in
  let E2 := Sample.env false (Ok JNull) in
  let w := Sample.world [] in
  connected E = Ok true
  /\ position E = Ok (zero, zero)
  /\ http E (reverse_url P zero zero) = Ok Trial.place
  /\ connected E2 = Ok false
  /\ (let location := current_location zero zero Trial.place in
      let w1 := snd (getCurrentLocation P E w) in
      fst (getCurrentLocation P E w) = Ok location
      /\ trace w1 = HttpGet (reverse_url P zero zero) :: GetCurrentPosition :: trace w
      /\ getCurrentLocation P E2 w1 = (Ok location, w1)).
Proof.
  split; [reflexivity|]. split; [reflexivity|]. split; [reflexivity|]. split; [reflexivity|].
  apply (getCurrentLocation_online_then_offline Sample.platform
           (Trial.env (Ok (zero, zero)) (Ok Trial.place)) (Sample.env false (Ok JNull))
           (Sample.world []) zero zero Trial.place); reflexivity.
Defined.

Lemma getCurrentLocation_online_failures_witness :
  let P := Sample.platform in
  let blind := Trial.env (Err Trial.denied) (Ok Trial.place) in
  let lost := Trial.env (Ok (zero, zero)) (Err (Rejected "[object Object]")) in
  let w := Sample.located_world in
  (connected blind = Ok true
   /\ position blind = Err Trial.denied
   /\ getCurrentLocation P blind w
      = (Err Trial.denied,
         {| store := store w;
            trace := Alert ("Error getting location: " +:+ toString Trial.denied)
                     :: GetCurrentPosition :: trace w;
            tick := tick w |}))
  /\ (connected lost = Ok true
      /\ position lost = Ok (zero, zero)
      /\ http lost (reverse_url P zero zero) = Err (Rejected "[object Object]")
      /\ getCurrentLocation P lost w
         = (Err (Error "Failed to get city name."),
            {| store := store w;
               trace := Alert "Error getting location: Error: Failed to get city name."
                        :: HttpGet (reverse_url P zero zero) :: GetCurrentPosition :: trace w;
               tick := tick w |})).
Proof.
  split.
  - split; [reflexivity|]. split; [reflexivity|].
    apply (proj1 (getCurrentLocation_online_failures Sample.platform
                    (Trial.env (Err Trial.denied) (Ok Trial.place)) Sample.located_world
                    eq_refl) Trial.denied).
    reflexivity.
  - split; [reflexivity|]. split; [reflexivity|]. split; [reflexivity|].
    apply (proj2 (getCurrentLocation_online_failures Sample.platform
                    (Trial.env (Ok (zero, zero)) (Err (Rejected "[object Object]")))
                    Sample.located_world eq_refl) zero zero (Rejected "[object Object]"));
      reflexivity.
Defined.

Lemma getCurrentLocation_offline_missing_witness :
  let P := Sample.platform in
  let E := Sample.env false (Ok JNull) in
  let w := Sample.cached_world in
  connected E = Ok false
  /\ JS.truthy (default JNull (store w !! "currentLocation")) = false
  /\ getCurrentLocation P E w
     = (Err (Error "No cached location available while offline."),
        {| store := store w;
           trace := Alert "Error getting location: Error: No cached location available while offline."
                    :: Alert "You are offline and no cached location is available." :: trace w;
           tick := tick w |}).
Proof.
  split; [reflexivity|]. split; [reflexivity|].
  apply (getCurrentLocation_offline_missing Sample.platform (Sample.env false (Ok JNull))
           Sample.cached_world); reflexivity.
Defined.

Lemma getCurrentLocation_failure_witness :
  let P := Sample.platform in
  let E := Trial.env (Err Trial.denied) (Ok Trial.place) in
  let w := Sample.located_world in
  fst (getCurrentLocation P E w) = Err Trial.denied
  /\ store (snd (getCurrentLocation P E w)) = store w
  /\ exists rest,
       trace (snd (getCurrentLocation P E w))
       = Alert ("Error getting location: " +:+ toString Trial.denied) :: rest.
Proof.
  split; [reflexivity|].
  apply (getCurrentLocation_failure Sample.platform
           (Trial.env (Err Trial.denied) (Ok Trial.place)) Sample.located_world Trial.denied).
  reflexivity.
Defined.

Lemma initialize_online_console_witness :
  let P := Sample.platform in
  let E := Trial.env (Err Trial.denied) (Ok Trial.place) in
  let s := Trial.session Sample.located_world in
  connected E = Ok true
  /\ console (initialize P E Trial.not_a_function s) =
     match fst (getCurrentLocation P E (world s)) with
     | Ok _ => console s
     | Err e => e :: console s
     end.
Proof.
  split; [reflexivity|].
  apply (initialize_online_console Sample.platform
           (Trial.env (Err Trial.denied) (Ok Trial.place)) Trial.not_a_function
           (Trial.session Sample.located_world)).
  reflexivity.
Defined.

Lemma initialize_offline_witness :
  let P := Sample.platform in
  let E := Sample.env false (Ok JNull) in
  let found := Trial.session Sample.located_world in
  let lost := Trial.session Sample.cached_world in
  connected E = Ok false
  /\ (store (world found) !! "currentLocation" = Some (Location_value Sample.home)
      /\ initialize P E Trial.not_a_function found = found)
  /\ (JS.truthy (default JNull (store (world lost) !! "currentLocation")) = false
      /\ initialize P E Trial.not_a_function lost
         = {| world := log (Alert "You are offline and no cached location is available.")
                           (world lost);
              subject := subject lost;
              console := console lost |}).
Proof.
  split; [reflexivity|]. split.
  - split; [reflexivity|].
    apply (proj1 (initialize_offline Sample.platform (Sample.env false (Ok JNull))
                    Trial.not_a_function (Trial.session Sample.located_world) eq_refl)
                 Sample.home).
    reflexivity.
  - split; [reflexivity|].
    apply (proj2 (initialize_offline Sample.platform (Sample.env false (Ok JNull))
                    Trial.not_a_function (Trial.session Sample.cached_world) eq_refl)).
    reflexivity.
Defined.
